(** * validate_project_structure.py: the project-structure validator

    A shallow embedding of [validate_project_structure.py] and the
    properties of its checks.  The script looks at a fixed list of files
    below [AiderVSExtension/], prints one line per check and exits with
    status 0 when every check passed and with status 1 otherwise.

    - A Python [str] is a list of Unicode code points; file contents are
      the text that [f.read()] returns.
    - The disk, as the script observes it, is a finite map from paths to
      nodes: a readable text file, or something that exists and cannot be
      opened and read (a directory, a file without read permission, bytes
      that do not decode).
    - [os.path.exists], [open(path, mode)] with [f.read()], and [print]
      are the primitives.  They are actions of a state monad over the disk
      and standard output, whose outcome is a value or an uncaught
      exception.  Standard output is a UTF-8 stream: it takes every
      string but one that holds a lone surrogate.
    - [re.search] is modelled on the fragment of the pattern syntax in
      which the script's own pattern is written; a pattern outside the
      fragment gives the outcome [Unmodelled].

    The first part holds the program, the second part its properties. *)

From Stdlib Require Import NArith ZArith List Bool Lia.
From Stdlib.Strings Require Import Byte.
From stdpp Require Import base option list gmap.
Import ListNotations.

(* ===================================================================== *)
(** ** Python strings *)
(* ===================================================================== *)

(** A [str] is a sequence of code points. *)
Definition str : Type := list N.

(** Literals are written in UTF-8 and decoded to code points, so that the
    messages read as they do in the script. *)
Module Utf8.

Fixpoint decode (bs : list N) : list N :=
  match bs with
  | [] => []
  | b0 :: r0 =>
    if (b0 <? 128)%N then b0 :: decode r0
    else match r0 with
    | [] => [b0]
    | b1 :: r1 =>
      if (b0 <? 224)%N then
        ((b0 - 192) * 64 + (b1 - 128))%N :: decode r1
      else match r1 with
      | [] => [b0]
      | b2 :: r2 =>
        if (b0 <? 240)%N then
          ((b0 - 224) * 4096 + (b1 - 128) * 64 + (b2 - 128))%N :: decode r2
        else match r2 with
        | [] => [b0]
        | b3 :: r3 =>
          ((b0 - 240) * 262144 + (b1 - 128) * 4096
           + (b2 - 128) * 64 + (b3 - 128))%N :: decode r3
        end
      end
    end
  end.

Definition encode1 (c : N) : list N :=
  if (c <? 128)%N then [c]
  else if (c <? 2048)%N then [192 + c / 64; 128 + c mod 64]%N
  else if (c <? 65536)%N then
    [224 + c / 4096; 128 + (c / 64) mod 64; 128 + c mod 64]%N
  else [240 + c / 262144; 128 + (c / 4096) mod 64;
        128 + (c / 64) mod 64; 128 + c mod 64]%N.

Definition to_byte (n : N) : byte :=
  match Byte.of_N n with Some b => b | None => x00 end.

Inductive lit := lnil | lcons (c : N) (s : lit).

Fixpoint to_lit (l : list N) : lit :=
  match l with [] => lnil | c :: r => lcons c (to_lit r) end.

Fixpoint of_lit (l : lit) : list N :=
  match l with lnil => [] | lcons c r => c :: of_lit r end.

Definition parse (bs : list byte) : lit :=
  to_lit (decode (map Byte.to_N bs)).

Definition print (s : lit) : list byte :=
  map to_byte (flat_map encode1 (of_lit s)).

End Utf8.

Declare Scope py_scope.
Delimit Scope py_scope with py.
#[warnings="-via-type-mismatch,-via-type-remapping"]
String Notation str Utf8.parse Utf8.print
  (via Utf8.lit mapping [[nil] => Utf8.lnil, [cons] => Utf8.lcons]) : py_scope.
Open Scope py_scope.

(** The newline that [print] appends and that ["\n"] denotes. *)
Definition nl : str := [10%N].

(** [s.startswith(p)]. *)
Fixpoint startswith (p s : str) : bool :=
  match p, s with
  | [], _ => true
  | _ :: _, [] => false
  | a :: p', b :: s' => (a =? b)%N && startswith p' s'
  end.

(** [needle in hay] on strings: [needle] occurs as a contiguous run of
    code points of [hay].  The comparison is on code points, hence
    case-sensitive. *)
Fixpoint contains (needle hay : str) : bool :=
  startswith needle hay ||
  match hay with
  | [] => false
  | _ :: hay' => contains needle hay'
  end.

(** [sep.join(parts)]. *)
Fixpoint join (sep : str) (parts : list str) : str :=
  match parts with
  | [] => []
  | [p] => p
  | p :: rest => p ++ sep ++ join sep rest
  end.

(** [s * n] for a string [s]. *)
Definition times (s : str) (n : nat) : str := concat (replicate n s).

(** The relation that [contains] decides. *)
Definition occurs_in (needle hay : str) : Prop :=
  exists before after, hay = before ++ needle ++ after.


(* ===================================================================== *)
(** ** Regular expressions: the fragment used by the validator *)
(* ===================================================================== *)

(** The only pattern the script builds is
    [rf'public\s+interface\s+{interface_name}']: ordinary characters, the
    class [\s], and the postfix [+].  [re_compile] reads exactly this
    fragment and answers [None] on every other use of a special
    character; such patterns are outside the model. *)
Module Re.

(** [\s] on a [str] pattern: the code points for which [str.isspace()]
    holds. *)
Definition is_space (c : N) : bool :=
  ((9 <=? c) && (c <=? 13) || (28 <=? c) && (c <=? 32)
   || (c =? 133) || (c =? 160) || (c =? 5760)
   || (8192 <=? c) && (c <=? 8202)
   || (c =? 8232) || (c =? 8233) || (c =? 8239) || (c =? 8287)
   || (c =? 12288))%N.

(** The special characters of the pattern syntax: . ^ $ * + ? { } [ ] \ | ( ) *)
Definition specials : str := ".^$*+?{}[]\|()".

Definition is_special (c : N) : bool := existsb (N.eqb c) specials.

Inductive atom :=
| Chr (c : N)     (* an ordinary character, matching itself *)
| Space.          (* \s *)

Inductive item :=
| One (a : atom)      (* a  *)
| Many (a : atom).    (* a+ *)

Definition regex := list item.

Definition backslash : N := 92.
Definition plus_sign : N := 43.
Definition letter_s : N := 115.

(** A pattern is read left to right: an atom ([\s] or an ordinary
    character), then an optional [+]. *)
Fixpoint re_compile (pattern : str) : option regex :=
  match pattern with
  | [] => Some []
  | c :: rest =>
    if (c =? backslash)%N then
      match rest with
      | c1 :: rest1 =>
        if (c1 =? letter_s)%N then
          match rest1 with
          | c2 :: rest2 =>
            if (c2 =? plus_sign)%N
            then cons (Many Space) <$> re_compile rest2
            else cons (One Space) <$> re_compile rest1
          | [] => Some [One Space]
          end
        else None
      | [] => None
      end
    else if is_special c then None
    else
      match rest with
      | c1 :: rest1 =>
        if (c1 =? plus_sign)%N
        then cons (Many (Chr c)) <$> re_compile rest1
        else cons (One (Chr c)) <$> re_compile rest
      | [] => Some [One (Chr c)]
      end
  end.

Definition atom_matches (a : atom) (c : N) : bool :=
  match a with
  | Chr c' => (c' =? c)%N
  | Space => is_space c
  end.

(** [match_here r s]: some prefix of [s] matches [r]. *)
Fixpoint match_here (r : regex) : str -> bool :=
  match r with
  | [] => fun _ => true
  | One a :: r' => fun s =>
    match s with
    | c :: s' => atom_matches a c && match_here r' s'
    | [] => false
    end
  | Many a :: r' =>
    fix many (s : str) : bool :=
      match s with
      | c :: s' => atom_matches a c && (many s' || match_here r' s')
      | [] => false
      end
  end.

(** [re.search]: a match starting at some position of [s]. *)
Fixpoint search (r : regex) (s : str) : bool :=
  match_here r s ||
  match s with
  | [] => false
  | _ :: s' => search r s'
  end.

(** What it means for a whole string to match a pattern of the
    fragment; [match_here] and [search] are checked against it below. *)
Inductive matches : regex -> str -> Prop :=
| matches_nil : matches [] []
| matches_one a c r s :
    atom_matches a c = true -> matches r s ->
    matches (One a :: r) (c :: s)
| matches_many_last a c r s :
    atom_matches a c = true -> matches r s ->
    matches (Many a :: r) (c :: s)
| matches_many_more a c r s :
    atom_matches a c = true -> matches (Many a :: r) s ->
    matches (Many a :: r) (c :: s).

(** A name without special characters stands for itself in a pattern. *)
Definition plain (name : str) : bool :=
  forallb (fun c => negb (is_special c)) name.

Definition literal (name : str) : regex := map (fun c => One (Chr c)) name.

(** A non-empty run of whitespace. *)
Definition spaces (ws : str) : Prop :=
  ws <> [] /\ forallb is_space ws = true.

End Re.


(* ===================================================================== *)
(** ** The disk, standard output and the monad of the script *)
(* ===================================================================== *)

(** Exceptions that the primitives below can raise. *)
Inductive exn :=
| FileNotFoundError
| IsADirectoryError
| PermissionError
| UnicodeDecodeError
| UnicodeEncodeError
| UnsupportedOperation.

(** What a path leads to, as the script can observe it.  Text is what
    [f.read()] returns for a file opened in text mode. *)
Inductive node :=
| RegularFile (text : str)
| Unreadable (e : exn).
    (* the path exists, and opening or reading it raises [e]: a directory,
       a file without read permission, bytes that do not decode *)

Abbreviation filesystem := (gmap str node).

Record world := World { disk : filesystem; stdout : str }.

(** The outcome of an action: a value, an uncaught exception, or
    [Unmodelled] when the action compiles a pattern outside the fragment
    of [Re.re_compile]. *)
Inductive outcome (A : Type) :=
| Returns (a : A)
| Raises (e : exn)
| Unmodelled.
Arguments Returns {A} a.
Arguments Raises {A} e.
Arguments Unmodelled {A}.

Definition M (A : Type) : Type := world -> outcome A * world.

Definition ret {A : Type} (a : A) : M A := fun w => (Returns a, w).

(** Sequencing: an exception raised by the first action ends the run. *)
Definition bind {A B : Type} (m : M A) (f : A -> M B) : M B := fun w =>
  match m w with
  | (Returns a, w') => f a w'
  | (Raises e, w') => (Raises e, w')
  | (Unmodelled, w') => (Unmodelled, w')
  end.

Declare Scope py_monad_scope.
Delimit Scope py_monad_scope with M.
Notation "x <- m ;; k" := (bind m (fun x => k))
  (at level 100, m at next level, right associativity) : py_monad_scope.
Notation "m ;; k" := (bind m (fun _ => k))
  (at level 100, k at level 200, right associativity) : py_monad_scope.
Open Scope py_monad_scope.

(** [os.path.exists(path)]. *)
Definition path_exists (path : str) : M bool := fun w =>
  (Returns (match disk w !! path with Some _ => true | None => false end), w).

Inductive open_mode := mode_r | mode_w.

(** [with open(path, mode) as f: content = f.read()].  Opening for
    writing creates or truncates the file, and reading from it is then
    refused. *)
Definition read_file (path : str) (mode : open_mode) : M str := fun w =>
  match mode, disk w !! path with
  | _, Some (Unreadable e) => (Raises e, w)
  | mode_r, Some (RegularFile text) => (Returns text, w)
  | mode_r, None => (Raises FileNotFoundError, w)
  | mode_w, _ =>
    (Raises UnsupportedOperation,
     World (<[path := RegularFile []]> (disk w)) (stdout w))
  end.

(** The code points U+D800 to U+DFFF.  A [str] can hold one on its own
    (a file name whose bytes do not decode is given this way), and UTF-8
    has no bytes for it. *)
Definition surrogate (c : N) : bool := ((55296 <=? c) && (c <=? 57343))%N.

(** The strings that standard output takes: a UTF-8 stream with the
    error handler [strict], as Python opens it. *)
Definition encodable (s : str) : bool :=
  forallb (fun c => negb (surrogate c)) s.

(** [print(s)]: the string and a newline are written to standard output.
    The string is encoded as a whole first, so one that cannot be
    encoded raises and leaves nothing of itself behind. *)
Definition print (s : str) : M unit := fun w =>
  if encodable s
  then (Returns tt, World (disk w) (stdout w ++ s ++ nl))
  else (Raises UnicodeEncodeError, w).

(** [re.search(pattern, content)], as a truth value. *)
Definition re_search (pattern content : str) : M bool :=
  match Re.re_compile pattern with
  | Some r => ret (Re.search r content)
  | None => fun w => (Unmodelled, w)
  end.

(** [for x in xs: body], threading the local variables [s] that the body
    assigns. *)
Fixpoint for_each {A S : Type} (xs : list A) (body : A -> S -> M S) (s : S)
  : M S :=
  match xs with
  | [] => ret s
  | x :: xs' => s' <- body x s;; for_each xs' body s'
  end.

(* ===================================================================== *)
(** ** The checks *)
(* ===================================================================== *)

Definition check_file_exists (file_path description : str) : M bool :=
  e <- path_exists file_path;;
  if e then
    print ("✅ " ++ description ++ ": " ++ file_path);;
    ret true
  else
    print ("❌ " ++ description ++ ": " ++ file_path ++ " - NOT FOUND");;
    ret false.

Definition check_interface_definition (file_path interface_name : str)
  : M bool :=
  e <- path_exists file_path;;
  if negb e then
    print ("❌ Interface " ++ interface_name ++ ": File " ++ file_path
             ++ " not found");;
    ret false
  else
    content <- read_file file_path mode_r;;
    let interface_pattern := "public\s+interface\s+" ++ interface_name in
    found <- re_search interface_pattern content;;
    if found then
      print ("✅ Interface " ++ interface_name ++ ": Properly defined");;
      ret true
    else
      print ("❌ Interface " ++ interface_name ++ ": Not properly defined");;
      ret false.

Definition required_packages : list str :=
  [ "Microsoft.VisualStudio.SDK";
    "Microsoft.VSSDK.BuildTools";
    "Microsoft.VisualStudio.Shell.Framework";
    "LibGit2Sharp";
    "Newtonsoft.Json" ].

(** The loop [for package in required: if package not in content:
    missing.append(package)], with [missing] starting empty. *)
Definition collect_missing (required : list str) (present : str -> bool)
  : list str :=
  fold_left
    (fun missing name => if negb (present name) then missing ++ [name]
                         else missing)
    required [].

Definition check_csproj_references (csproj_path : str) : M bool :=
  e <- path_exists csproj_path;;
  if negb e then
    print ("❌ Project file not found: " ++ csproj_path);;
    ret false
  else
    content <- read_file csproj_path mode_r;;
    let missing_packages :=
      collect_missing required_packages (fun package => contains package content) in
    match missing_packages with
    | [] =>
      print "✅ All required NuGet packages are referenced";;
      ret true
    | _ =>
      print ("❌ Missing NuGet packages: " ++ join ", " missing_packages);;
      ret false
    end.

Definition required_elements : list str :=
  [ "DisplayName"; "Description"; "Identity"; "Installation"; "Assets" ].

Definition check_vsix_manifest (manifest_path : str) : M bool :=
  e <- path_exists manifest_path;;
  if negb e then
    print ("❌ VSIX manifest not found: " ++ manifest_path);;
    ret false
  else
    content <- read_file manifest_path mode_r;;
    let missing_elements :=
      collect_missing required_elements
        (fun element => contains ("<" ++ element) content) in
    match missing_elements with
    | [] =>
      print "✅ VSIX manifest is properly configured";;
      ret true
    | _ =>
      print ("❌ VSIX manifest missing elements: "
               ++ join ", " missing_elements);;
      ret false
    end.

(* ===================================================================== *)
(** ** The orchestrator *)
(* ===================================================================== *)

Definition base_path : str := "AiderVSExtension".

Definition core_files : list (str * str) :=
  [ (base_path ++ "/AiderVSExtension.csproj", "Project file");
    (base_path ++ "/AiderVSExtensionPackage.cs", "Main package class");
    (base_path ++ "/source.extension.vsixmanifest", "VSIX manifest");
    (base_path ++ "/Properties/AssemblyInfo.cs", "Assembly info");
    (base_path ++ "/Services/ServiceContainer.cs", "Service container") ].

Definition interfaces : list (str * str) :=
  [ ("IAiderService", "Core Aider AI service interface");
    ("IConfigurationService", "Configuration management interface");
    ("IFileContextService", "File and solution context interface");
    ("IAIModelManager", "AI model management interface");
    ("ICompletionProvider", "AI completion provider interface");
    ("IErrorHandler", "Error handling interface");
    ("IMessageRenderer", "Message rendering interface") ].

Definition interface_file (interface_name : str) : str :=
  base_path ++ "/Interfaces/" ++ interface_name ++ ".cs".

Definition csproj_file : str := base_path ++ "/AiderVSExtension.csproj".
Definition manifest_file : str := base_path ++ "/source.extension.vsixmanifest".
Definition package_file : str := base_path ++ "/AiderVSExtensionPackage.cs".

(** [if not check: all_checks_passed = False]. *)
Definition note (ok all_checks_passed : bool) : bool :=
  if negb ok then false else all_checks_passed.

(** The sections of [main], in the order of the script.  Each takes the
    current value of [all_checks_passed] and returns the new one. *)

(* # Check core project files *)
Definition main_core_files (all_checks_passed : bool) : M bool :=
  print (nl ++ "📁 Core Project Files:");;
  for_each core_files
    (fun '(file_path, description) all_checks_passed =>
       ok <- check_file_exists file_path description;;
       ret (note ok all_checks_passed))
    all_checks_passed.

(* # Check interface files *)
Definition main_interfaces (all_checks_passed : bool) : M bool :=
  print (nl ++ "🔌 Interface Definitions:");;
  for_each interfaces
    (fun '(interface_name, description) all_checks_passed =>
       let file_path := interface_file interface_name in
       ok <- check_interface_definition file_path interface_name;;
       ret (note ok all_checks_passed))
    all_checks_passed.

(* # Check project configuration *)
Definition main_configuration (all_checks_passed : bool) : M bool :=
  print (nl ++ "⚙️ Project Configuration:");;
  ok <- check_csproj_references csproj_file;;
  let all_checks_passed := note ok all_checks_passed in
  ok <- check_vsix_manifest manifest_file;;
  let all_checks_passed := note ok all_checks_passed in
  ret all_checks_passed.

(** The condition of the integration check. *)
Definition integration_markers (content : str) : bool :=
  contains "ServiceContainer" content && contains "InitializeAsync" content.

(* # Check service container integration *)
Definition main_integration (all_checks_passed : bool) : M bool :=
  print (nl ++ "🏗️ Service Container Integration:");;
  e <- path_exists package_file;;
  if e then
    content <- read_file package_file mode_r;;
    if integration_markers content then
      print "✅ Service container is properly integrated in main package";;
      ret all_checks_passed
    else
      print "❌ Service container integration incomplete";;
      ret false
  else
    ret all_checks_passed.

(* # Final result *)
Definition main_final (all_checks_passed : bool) : M bool :=
  print (nl ++ times "=" 60);;
  (if all_checks_passed then
     print "🎉 All validation checks PASSED!";;
     print "✅ Task 1 requirements have been successfully implemented:";;
     print "   • VSIX project with proper manifest and package configuration";;
     print "   • Core interfaces defined for services and components";;
     print "   • Dependency injection container set up for service management"
   else
     print "❌ Some validation checks FAILED!";;
     print "Please review the issues above and fix them.");;
  ret all_checks_passed.

Definition main : M bool :=
  print "🔍 Validating Visual Studio Extension Project Structure";;
  print (times "=" 60);;
  let all_checks_passed := true in
  all_checks_passed <- main_core_files all_checks_passed;;
  all_checks_passed <- main_interfaces all_checks_passed;;
  all_checks_passed <- main_configuration all_checks_passed;;
  all_checks_passed <- main_integration all_checks_passed;;
  main_final all_checks_passed.

(** One run of the script as a process: [success = main()] followed by
    [exit(0 if success else 1)].  An uncaught exception ends the process
    with status 1. *)
Record process := Process {
  exit_status : Z;
  printed : str;
  disk_after : filesystem
}.

Definition run_script (d : filesystem) : option process :=
  match main (World d []) with
  | (Returns success, w) =>
    Some (Process (if success then 0 else 1)%Z (stdout w) (disk w))
  | (Raises _, w) => Some (Process 1%Z (stdout w) (disk w))
  | (Unmodelled, _) => None
  end.


(* ===================================================================== *)
(** ** Vocabulary of the statements *)
(* ===================================================================== *)

(** The world after one more printed line. *)
Notation "w '+line' s" := (World (disk w) (stdout w ++ s ++ nl))
  (at level 50, left associativity, only parsing).

(** An action observes the disk when it leaves the disk as it found it,
    only appends to standard output, and neither its outcome nor what it
    prints depends on what was printed before. *)
Definition observer {A : Type} (m : M A) : Prop :=
  forall d, exists o extra, forall out,
    m (World d out) = (o, World d (out ++ extra)).

(** The outcome of an action on a disk, and what it prints there. *)
Definition result_of {A : Type} (m : M A) (d : filesystem) : outcome A :=
  fst (m (World d [])).

Definition output_of {A : Type} (m : M A) (d : filesystem) : str :=
  stdout (snd (m (World d []))).

(** A check passes when it returns [True]. *)
Definition passes (check : M bool) (d : filesystem) : bool :=
  match result_of check d with
  | Returns true => true
  | _ => false
  end.

(** The integration section as a check: entered with the flag set, it
    answers whether the flag survives. *)
Definition integration_check : M bool := main_integration true.

Definition core_file_checks : list (M bool) :=
  map (fun '(file_path, description) =>
         check_file_exists file_path description) core_files.

Definition interface_checks : list (M bool) :=
  map (fun '(interface_name, _) =>
         check_interface_definition (interface_file interface_name)
           interface_name) interfaces.

Definition configuration_checks : list (M bool) :=
  [ check_csproj_references csproj_file; check_vsix_manifest manifest_file ].

(** Every check of a run, in the order of the script. *)
Definition checklist : list (M bool) :=
  core_file_checks ++ interface_checks ++ configuration_checks
  ++ [integration_check].

(** The files that the script opens. *)
Definition opened_files : list str :=
  map (fun '(interface_name, _) => interface_file interface_name) interfaces
  ++ [csproj_file; manifest_file; package_file].

(** Every opened file that exists can be read as text. *)
Definition openable (d : filesystem) : Prop :=
  forall path e, In path opened_files -> d !! path <> Some (Unreadable e).

(** A check reports its result on a line of its own, marked with the
    result. *)
Definition reports (check : M bool) (d : filesystem) : Prop :=
  exists passed line,
    check (World d []) = (Returns passed, World d (line ++ nl))
    /\ startswith (if passed then "✅ " else "❌ ") line = true.

(** What a check leaves behind when it prints [line] and returns
    [passed]. *)
Definition say (w : world) (passed : bool) (line : str)
  : outcome bool * world :=
  if encodable line then (Returns passed, w +line line)
  else (Raises UnicodeEncodeError, w).


(** A section of [main] tracks [ok] when, entered with the flag [acc], it
    returns [acc && ok d], or is cut short by the exception of a check,
    which therefore did not pass. *)
Definition tracks (section : bool -> M bool) (ok : filesystem -> bool) : Prop :=
  forall acc d,
    match result_of (section acc) d with
    | Returns b => b = acc && ok d
    | Raises _ => ok d = false
    | Unmodelled => False
    end.

(** The pattern text in front of the interface name, compiled. *)
Definition interface_prefix : Re.regex :=
  Re.literal "public" ++ [Re.Many Re.Space]
  ++ Re.literal "interface" ++ [Re.Many Re.Space].

(* ===================================================================== *)
(** ** Sample disks *)
(* ===================================================================== *)

(** A project in which every check passes. *)
Definition complete_project : filesystem :=
  list_to_map
    ([ (csproj_file,
        RegularFile
          ("<PackageReference Include='Microsoft.VisualStudio.SDK' />"
           ++ "<PackageReference Include='Microsoft.VSSDK.BuildTools' />"
           ++ "<Reference Include='Microsoft.VisualStudio.Shell.Framework' />"
           ++ "<PackageReference Include='LibGit2Sharp' />"
           ++ "<PackageReference Include='Newtonsoft.Json' />"));
       (package_file,
        RegularFile
          ("var c = new ServiceContainer();" ++ nl
           ++ "protected override async Task InitializeAsync()"));
       (manifest_file,
        RegularFile
          ("<Identity Id='x' /><DisplayName>Aider</DisplayName>"
           ++ "<Description>AI</Description><Installation /><Assets />"));
       (base_path ++ "/Properties/AssemblyInfo.cs", RegularFile []);
       (base_path ++ "/Services/ServiceContainer.cs", RegularFile []) ]
     ++ map (fun '(interface_name, _) =>
               (interface_file interface_name,
                RegularFile ("public interface " ++ interface_name ++ " { }")))
          interfaces).

(** No project at all, and the same with a directory in the place of the
    first interface file. *)
Definition empty_disk : filesystem := ∅.

Definition directory_for_interface : filesystem :=
  {[ interface_file "IAiderService" := Unreadable IsADirectoryError ]}.

(** A csproj that names one package, and another in the wrong case. *)
Definition partial_csproj : str := "LibGit2Sharp, newtonsoft.json".

Definition partial_csproj_world : world :=
  World {[ csproj_file := RegularFile partial_csproj ]} [].

(** A manifest in which "Assets" is text, not an element. *)
Definition partial_manifest : str :=
  "<Identity Id=1/><DisplayName>Assets</DisplayName>".

Definition partial_manifest_world : world :=
  World {[ manifest_file := RegularFile partial_manifest ]} [].

(** A package class that names the container and never initialises. *)
Definition half_integrated : str := "private ServiceContainer _container;".

Definition half_integrated_world : world :=
  World {[ package_file := RegularFile half_integrated ]} [].

(** An interface file that declares a longer name, over two lines. *)
Definition longer_interface : str :=
  "namespace N {" ++ nl ++ "public" ++ nl ++ "  interface IErrorHandlerFactory { }".

Definition longer_interface_world : world :=
  World {[ interface_file "IErrorHandler" := RegularFile longer_interface ]} [].

(** A name that is pattern syntax, in a file that spells it out. *)
Definition class_name : str := "\s".

Definition class_name_world : world :=
  World {[ ("Name.cs" : str) :=
             RegularFile ("public" ++ " " ++ "interface" ++ " " ++ class_name
                            ++ "Foo") ]} [].

(* ===================================================================== *)
(** ** Vocabulary of the further properties *)
(* ===================================================================== *)

(** The paths that [main] hands to a check or looks at itself. *)
Definition checked_paths : list str :=
  map fst core_files
  ++ map (fun '(interface_name, _) => interface_file interface_name) interfaces.

(** Two disks that hold the same under each of the given paths. *)
Definition agree_on (paths : list str) (d d' : filesystem) : Prop :=
  forall path, In path paths -> d !! path = d' !! path.

(** An action has the same outcome and output on two disks. *)
Definition same_run {A : Type} (m : M A) (d d' : filesystem) : Prop :=
  result_of m d = result_of m d' /\ output_of m d = output_of m d'.

(** A section of [main] returns only when each of its checks returned,
    and raises only what one of its checks raises. *)
Definition relays (section : bool -> M bool) (checks : list (M bool)) : Prop :=
  forall acc d,
    match result_of (section acc) d with
    | Returns _ =>
      forall check, In check checks -> exists b, result_of check d = Returns b
    | Raises e => exists check, In check checks /\ result_of check d = Raises e
    | Unmodelled => False
    end.

(** The interface pattern for a name is in the fragment of
    [Re.re_compile]. *)
Definition pattern_modelled (interface_name : str) : Prop :=
  Re.re_compile ("public\s+interface\s+" ++ interface_name) <> None.

(** What a check prints: it returns or raises, with one line marked with
    the result when it returns, and nothing when it raises. *)
Definition prints_its_result (check : M bool) (w : world) : Prop :=
  fst (check w) <> Unmodelled
  /\ (forall passed w',
        check w = (Returns passed, w') ->
        exists line,
          w' = w +line line
          /\ startswith (if passed then "✅ " else "❌ ") line = true)
  /\ (forall e w', check w = (Raises e, w') -> w' = w).

(** The report of a run in which every check passes. *)
Definition success_report : str :=
"🔍 Validating Visual Studio Extension Project Structure
============================================================

📁 Core Project Files:
✅ Project file: AiderVSExtension/AiderVSExtension.csproj
✅ Main package class: AiderVSExtension/AiderVSExtensionPackage.cs
✅ VSIX manifest: AiderVSExtension/source.extension.vsixmanifest
✅ Assembly info: AiderVSExtension/Properties/AssemblyInfo.cs
✅ Service container: AiderVSExtension/Services/ServiceContainer.cs

🔌 Interface Definitions:
✅ Interface IAiderService: Properly defined
✅ Interface IConfigurationService: Properly defined
✅ Interface IFileContextService: Properly defined
✅ Interface IAIModelManager: Properly defined
✅ Interface ICompletionProvider: Properly defined
✅ Interface IErrorHandler: Properly defined
✅ Interface IMessageRenderer: Properly defined

⚙️ Project Configuration:
✅ All required NuGet packages are referenced
✅ VSIX manifest is properly configured

🏗️ Service Container Integration:
✅ Service container is properly integrated in main package

============================================================
🎉 All validation checks PASSED!
✅ Task 1 requirements have been successfully implemented:
   • VSIX project with proper manifest and package configuration
   • Core interfaces defined for services and components
   • Dependency injection container set up for service management
".

(** The end of the report of a run that completes with a failed check. *)
Definition failure_banner : str :=
  (nl ++ times "=" 60) ++ nl
  ++ "❌ Some validation checks FAILED!" ++ nl
  ++ "Please review the issues above and fix them." ++ nl.

(** The complete project with one more file, which no check names. *)
Definition complete_project_with_readme : filesystem :=
  <[ ("README.md" : str) := RegularFile "ServiceContainer" ]> complete_project.

(** The longer interface between two comments. *)
Definition annotated_interface_world : world :=
  World {[ interface_file "IErrorHandler" :=
             RegularFile ("// generated" ++ longer_interface ++ "// end") ]} [].

(** A file name of one undecodable byte, as Python hands it over. *)
Definition surrogate_path : str := [56575%N].


(* ===================================================================== *)
(** * Properties *)
(* ===================================================================== *)

(* ===================================================================== *)
(** ** Strings: what [in] decides *)
(* ===================================================================== *)

Section StringFacts.

Implicit Types (p s t needle hay : str).

Lemma startswith_spec p s :
  startswith p s = true <-> exists t, s = p ++ t.
Proof.
  revert s. induction p as [|a p IH]; intros s; simpl.
  - split; [intros _; by exists s | done].
  - destruct s as [|b s]; simpl.
    + split; [done | intros [t Ht]; discriminate].
    + rewrite andb_true_iff, N.eqb_eq, IH. split.
      * intros [-> [t ->]]. by exists t.
      * intros [t Ht]. injection Ht as -> ->. split; [done | by exists t].
Qed.

Lemma contains_spec needle hay :
  contains needle hay = true <-> occurs_in needle hay.
Proof.
  unfold occurs_in. induction hay as [|c hay IH].
  - simpl. rewrite orb_false_r, startswith_spec. split.
    + intros [t Ht]. exists [], t. done.
    + intros (before & after & H). symmetry in H.
      apply app_eq_nil in H as [-> H]. apply app_eq_nil in H as [-> ->].
      by exists [].
  - cbn [contains]. rewrite orb_true_iff, startswith_spec, IH. split.
    + intros [[t Ht] | (before & after & Ht)].
      * exists [], t. done.
      * exists (c :: before), after. by rewrite Ht.
    + intros ([|c' before] & after & Ht).
      * left. by exists after.
      * right. injection Ht as -> ->. by exists before, after.
Qed.

Lemma contains_false needle hay :
  contains needle hay = false <-> ~ occurs_in needle hay.
Proof.
  rewrite <- contains_spec. destruct (contains needle hay); split; try done.
Qed.

Lemma occurs_in_middle before needle after :
  occurs_in needle (before ++ needle ++ after).
Proof. by exists before, after. Qed.

End StringFacts.

(* ===================================================================== *)
(** ** The matcher against the meaning of patterns *)
(* ===================================================================== *)

Section RegexFacts.

Import Re.
Implicit Types (r : regex) (s m t : str) (a : atom).

Lemma match_here_spec r s :
  match_here r s = true <-> exists m t, s = m ++ t /\ matches r m.
Proof.
  revert s. induction r as [|[a|a] r IH]; intros s.
  - simpl. split; [|done]. intros _. exists [], s. split; [done | constructor].
  - destruct s as [|c s]; simpl.
    + split; [done|]. intros (m & t & Hs & Hm).
      inversion Hm; subst; discriminate.
    + rewrite andb_true_iff, IH. split.
      * intros [Ha (m & t & -> & Hm)]. exists (c :: m), t.
        split; [done | by constructor].
      * intros (m & t & Hs & Hm). inversion Hm; subst.
        injection Hs as -> ->. eauto.
  - induction s as [|c s IHs].
    + simpl. split; [done|]. intros (m & t & Hs & Hm).
      inversion Hm; subst; discriminate.
    + change (match_here (Many a :: r) (c :: s))
        with (atom_matches a c
              && (match_here (Many a :: r) s || match_here r s)).
      rewrite andb_true_iff, orb_true_iff, IHs, IH. split.
      * intros [Ha [(m & t & -> & Hm) | (m & t & -> & Hm)]];
          exists (c :: m), t; (split; [done|]).
        -- by apply matches_many_more.
        -- by apply matches_many_last.
      * intros (m & t & Hs & Hm).
        inversion Hm; subst; injection Hs as -> ->; eauto 6.
Qed.

Lemma search_spec r s :
  search r s = true <->
  exists before m after, s = before ++ m ++ after /\ matches r m.
Proof.
  induction s as [|c s IHs].
  - simpl. rewrite orb_false_r, match_here_spec. split.
    + intros (m & t & Hs & Hm). by exists [], m, t.
    + intros (before & m & after & Hs & Hm). symmetry in Hs.
      apply app_eq_nil in Hs as [-> Hs]. eauto.
  - cbn [search]. rewrite orb_true_iff, match_here_spec, IHs. split.
    + intros [(m & t & Hs & Hm) | (before & m & after & -> & Hm)].
      * by exists [], m, t.
      * by exists (c :: before), m, after.
    + intros ([|c' before] & m & after & Hs & Hm).
      * left. by exists m, after.
      * right. injection Hs as -> ->. by exists before, m, after.
Qed.

Lemma matches_app r1 r2 s1 s2 :
  matches r1 s1 -> matches r2 s2 -> matches (r1 ++ r2) (s1 ++ s2).
Proof.
  intros H1 H2. induction H1; simpl; [done | | |].
  - by apply matches_one.
  - by apply matches_many_last.
  - by apply matches_many_more.
Qed.

Lemma matches_literal s : matches (literal s) s.
Proof.
  induction s as [|c s IH]; [constructor|].
  apply matches_one; [apply N.eqb_refl | done].
Qed.

Lemma matches_spaces ws r s :
  spaces ws -> matches r s -> matches (Many Space :: r) (ws ++ s).
Proof.
  intros [Hne Hws] Hm. induction ws as [|c ws IH]; [done|].
  simpl in Hws. apply andb_true_iff in Hws as [Hc Hws].
  destruct ws as [|c' ws].
  - by apply matches_many_last.
  - apply matches_many_more; [done|]. by apply IH.
Qed.

Lemma special_backslash c : is_special c = false -> (c =? backslash)%N = false.
Proof.
  intros H. destruct (N.eqb_spec c backslash) as [->|]; [|done].
  by vm_compute in H.
Qed.

Lemma special_plus c : is_special c = false -> (c =? plus_sign)%N = false.
Proof.
  intros H. destruct (N.eqb_spec c plus_sign) as [->|]; [|done].
  by vm_compute in H.
Qed.

Lemma re_compile_plain s : plain s = true -> re_compile s = Some (literal s).
Proof.
  induction s as [|c s IH]; [done|].
  cbn [plain forallb]. rewrite andb_true_iff, negb_true_iff.
  intros [Hc Hs]. cbn [re_compile].
  rewrite (special_backslash c Hc), Hc.
  destruct s as [|c1 s1]; [done|].
  assert (is_special c1 = false) as Hc1.
  { cbn [plain forallb] in Hs.
    by apply andb_true_iff in Hs as [?%negb_true_iff _]. }
  rewrite (special_plus c1 Hc1), (IH Hs). done.
Qed.

Lemma re_compile_then_spaces lit rest :
  plain lit = true ->
  re_compile (lit ++ "\s+" ++ rest)
  = app (literal lit ++ [Many Space]) <$> re_compile rest.
Proof.
  induction lit as [|c lit IH].
  - intros _. cbn. by destruct (re_compile rest).
  - cbn [plain forallb]. rewrite andb_true_iff, negb_true_iff.
    intros [Hc Hlit]. specialize (IH Hlit).
    change ((c :: lit) ++ "\s+" ++ rest) with (c :: lit ++ "\s+" ++ rest).
    cbn [re_compile]. rewrite (special_backslash c Hc), Hc.
    destruct lit as [|c1 lit].
    + cbn [app] in *. change (backslash =? plus_sign)%N with false.
      cbv iota. rewrite IH. by destruct (re_compile rest).
    + assert (is_special c1 = false) as Hc1.
      { cbn [plain forallb] in Hlit.
        by apply andb_true_iff in Hlit as [?%negb_true_iff _]. }
      cbn [app] in *. rewrite (special_plus c1 Hc1), IH.
      by destruct (re_compile rest).
Qed.

End RegexFacts.

(* ===================================================================== *)
(** ** Actions that observe the disk *)
(* ===================================================================== *)

Section Observers.

Context {A B : Type}.

Lemma observer_ret (a : A) : observer (ret a).
Proof. intros d. exists (Returns a), []. intros out. by rewrite app_nil_r. Qed.

Lemma observer_bind (m : M A) (f : A -> M B) :
  observer m -> (forall a, observer (f a)) -> observer (bind m f).
Proof.
  intros Hm Hf d. destruct (Hm d) as (o & extra & Ho). unfold bind.
  destruct o as [a|e|].
  - destruct (Hf a d) as (o' & extra' & Ho'). exists o', (extra ++ extra').
    intros out. by rewrite Ho, Ho', app_assoc.
  - exists (Raises e), extra. intros out. by rewrite Ho.
  - exists Unmodelled, extra. intros out. by rewrite Ho.
Qed.

(** An observer is determined by its outcome and output on each disk. *)
Lemma observer_run (m : M A) w :
  observer m ->
  m w = (result_of m (disk w),
         World (disk w) (stdout w ++ output_of m (disk w))).
Proof.
  intros Hm. destruct w as [d out]. destruct (Hm d) as (o & extra & Ho).
  unfold result_of, output_of. simpl. by rewrite Ho, (Ho []).
Qed.

Lemma bind_run (m : M A) (f : A -> M B) w :
  observer m ->
  bind m f w =
  let w' := World (disk w) (stdout w ++ output_of m (disk w)) in
  match result_of m (disk w) with
  | Returns a => f a w'
  | Raises e => (Raises e, w')
  | Unmodelled => (Unmodelled, w')
  end.
Proof.
  intros Hm. unfold bind. rewrite (observer_run m w Hm).
  by destruct (result_of m (disk w)).
Qed.

End Observers.

Lemma observer_print s : observer (print s).
Proof.
  intros d. unfold print. destruct (encodable s).
  - by exists (Returns tt), (s ++ nl).
  - exists (Raises UnicodeEncodeError), []. intros out. by rewrite app_nil_r.
Qed.

Lemma observer_path_exists path : observer (path_exists path).
Proof.
  intros d. eexists _, []. intros out. unfold path_exists. simpl.
  by rewrite app_nil_r.
Qed.

Lemma observer_read_file path : observer (read_file path mode_r).
Proof.
  intros d. unfold read_file. simpl.
  destruct (d !! path) as [[text|e]|]; eexists _, []; intros out;
    by rewrite app_nil_r.
Qed.

Lemma observer_re_search pattern content : observer (re_search pattern content).
Proof.
  unfold re_search. destruct (Re.re_compile pattern); [apply observer_ret|].
  intros d. exists Unmodelled, []. intros out. by rewrite app_nil_r.
Qed.

Lemma observer_for_each {X S : Type} (xs : list X) (body : X -> S -> M S) s :
  (forall x s', In x xs -> observer (body x s')) ->
  observer (for_each xs body s).
Proof.
  revert s. induction xs as [|x xs IH]; intros s Hbody; simpl.
  - apply observer_ret.
  - apply observer_bind; [apply Hbody; by left|].
    intros s'. apply IH. intros y s'' Hy. apply Hbody. by right.
Qed.

Create HintDb observers.
#[local] Hint Resolve observer_ret observer_print observer_path_exists
  observer_read_file observer_re_search : observers.

(** Goals [observer m] for an action built from the primitives. *)
Ltac observe :=
  repeat first
    [ progress intros
    | solve [auto with observers]
    | apply observer_bind
    | match goal with
      | |- observer (if ?b then _ else _) => destruct b
      | |- observer (match ?x with _ => _ end) => destruct x
      | |- observer (for_each _ _ _) => apply observer_for_each
      | |- observer (let _ := _ in _) => cbv zeta
      end ].

Lemma observer_check_file_exists file_path description :
  observer (check_file_exists file_path description).
Proof. unfold check_file_exists. observe. Qed.

Lemma observer_check_interface_definition file_path interface_name :
  observer (check_interface_definition file_path interface_name).
Proof. unfold check_interface_definition. observe. Qed.

Lemma observer_check_csproj_references csproj_path :
  observer (check_csproj_references csproj_path).
Proof. unfold check_csproj_references. observe. Qed.

Lemma observer_check_vsix_manifest manifest_path :
  observer (check_vsix_manifest manifest_path).
Proof. unfold check_vsix_manifest. observe. Qed.

#[local] Hint Resolve observer_check_file_exists
  observer_check_interface_definition observer_check_csproj_references
  observer_check_vsix_manifest : observers.

Lemma observer_main_core_files acc : observer (main_core_files acc).
Proof. unfold main_core_files. observe. Qed.

Lemma observer_main_interfaces acc : observer (main_interfaces acc).
Proof. unfold main_interfaces. observe. Qed.

Lemma observer_main_configuration acc : observer (main_configuration acc).
Proof. unfold main_configuration. observe. Qed.

Lemma observer_main_integration acc : observer (main_integration acc).
Proof. unfold main_integration. observe. Qed.

Lemma observer_main_final acc : observer (main_final acc).
Proof. unfold main_final. observe. Qed.

#[local] Hint Resolve observer_main_core_files observer_main_interfaces
  observer_main_configuration observer_main_integration observer_main_final
  : observers.

Lemma observer_main : observer main.
Proof. unfold main. observe. Qed.

(* ===================================================================== *)
(** ** The checks, case by case *)
(* ===================================================================== *)


(** *** What standard output can encode *)

Lemma encodable_app a b : encodable (a ++ b) = encodable a && encodable b.
Proof. apply forallb_app. Qed.

Lemma encodable_join sep (parts : list str) :
  encodable sep = true ->
  (forall part, In part parts -> encodable part = true) ->
  encodable (join sep parts) = true.
Proof.
  intros Hsep. induction parts as [|p parts IH]; intros Hparts; [done|].
  destruct parts as [|q parts]; [apply Hparts; by left|].
  change (join sep (p :: q :: parts)) with (p ++ sep ++ join sep (q :: parts)).
  rewrite !encodable_app, Hsep, (Hparts p (or_introl eq_refl)), IH; [done|].
  intros part Hin. apply Hparts. by right.
Qed.

(** Goals [encodable s = true], for [s] made of literals and of strings
    known to be encodable. *)
Ltac enc :=
  solve [ rewrite ?encodable_app, ?andb_true_iff;
          repeat split;
          first [ assumption | reflexivity | vm_compute; reflexivity ] ].

(** Deciding [encodable] on the literals of the goal. *)
Ltac enc_literals :=
  repeat match goal with
         | |- context [encodable ?s] =>
           let b := eval vm_compute in (encodable s) in
           match b with
           | true => change (encodable s) with true
           | false => change (encodable s) with false
           end
         end;
  cbv iota.

Lemma print_ok s w :
  encodable s = true -> print s w = (Returns tt, w +line s).
Proof. intros H. unfold print. by rewrite H. Qed.

Lemma say_ok w passed line :
  encodable line = true -> say w passed line = (Returns passed, w +line line).
Proof. intros H. unfold say. by rewrite H. Qed.

Lemma core_files_encodable path description :
  In (path, description) core_files ->
  encodable path = true /\ encodable description = true.
Proof.
  intros Hin. unfold core_files in Hin. cbn [In] in Hin.
  repeat destruct Hin as [[= <- <-]|Hin]; by vm_compute.
Qed.

Lemma interfaces_encodable interface_name description :
  In (interface_name, description) interfaces ->
  encodable interface_name = true
  /\ encodable (interface_file interface_name) = true.
Proof.
  intros Hin. unfold interfaces in Hin. cbn [In] in Hin.
  repeat destruct Hin as [[= <- <-]|Hin]; by vm_compute.
Qed.

Lemma missing_names_encodable required (absent : str -> bool) sep :
  encodable sep = true ->
  (forall name, In name required -> encodable name = true) ->
  encodable (join sep (List.filter absent required)) = true.
Proof.
  intros Hsep Hreq. apply encodable_join; [done|].
  intros part [Hin _]%filter_In. by apply Hreq.
Qed.

Lemma required_names_encodable :
  (forall name, In name required_packages -> encodable name = true)
  /\ (forall name, In name required_elements -> encodable name = true).
Proof.
  split; intros name Hin; [unfold required_packages in Hin
                          |unfold required_elements in Hin];
    cbn [In] in Hin; repeat destruct Hin as [<-|Hin]; by vm_compute.
Qed.

(** *** Each check, by what it finds under its path *)

(** Unfolding the primitives, and nothing of the strings. *)
Ltac run_primitives :=
  cbv [bind path_exists read_file print ret fmap option_fmap option_map];
  enc_literals;
  cbn [disk stdout fst snd negb].

Lemma check_file_exists_cases file_path description w :
  check_file_exists file_path description w =
  match disk w !! file_path with
  | Some _ => say w true ("✅ " ++ description ++ ": " ++ file_path)
  | None =>
    say w false ("❌ " ++ description ++ ": " ++ file_path ++ " - NOT FOUND")
  end.
Proof.
  unfold check_file_exists, say. run_primitives.
  destruct (disk w !! file_path); by destruct (encodable _).
Qed.

Lemma check_file_exists_run file_path description w :
  encodable file_path = true -> encodable description = true ->
  check_file_exists file_path description w =
  match disk w !! file_path with
  | Some _ =>
    (Returns true, w +line ("✅ " ++ description ++ ": " ++ file_path))
  | None =>
    (Returns false,
     w +line ("❌ " ++ description ++ ": " ++ file_path ++ " - NOT FOUND"))
  end.
Proof.
  intros Hp Hd. rewrite check_file_exists_cases.
  destruct (disk w !! file_path); apply say_ok; enc.
Qed.

Lemma interface_pattern_compile interface_name :
  Re.re_compile ("public\s+interface\s+" ++ interface_name)
  = app interface_prefix <$> Re.re_compile interface_name.
Proof.
  change ("public\s+interface\s+" ++ interface_name)
    with ("public" ++ "\s+" ++ "interface" ++ "\s+" ++ interface_name).
  rewrite !re_compile_then_spaces by reflexivity.
  by destruct (Re.re_compile interface_name).
Qed.

Lemma check_interface_definition_cases file_path interface_name w :
  Re.plain interface_name = true ->
  check_interface_definition file_path interface_name w =
  match disk w !! file_path with
  | Some (RegularFile content) =>
    if Re.search (interface_prefix ++ Re.literal interface_name) content
    then say w true ("✅ Interface " ++ interface_name ++ ": Properly defined")
    else say w false
           ("❌ Interface " ++ interface_name ++ ": Not properly defined")
  | Some (Unreadable e) => (Raises e, w)
  | None =>
    say w false
      ("❌ Interface " ++ interface_name ++ ": File " ++ file_path
         ++ " not found")
  end.
Proof.
  intros Hplain. unfold check_interface_definition, re_search, say.
  rewrite interface_pattern_compile, (re_compile_plain _ Hplain).
  run_primitives.
  destruct (disk w !! file_path) as [[content|e]|] eqn:E; run_primitives;
    rewrite ?E; [|done|by destruct (encodable _)].
  destruct (Re.search _ content); by destruct (encodable _).
Qed.

Lemma check_interface_definition_run file_path interface_name w :
  Re.plain interface_name = true ->
  encodable interface_name = true -> encodable file_path = true ->
  check_interface_definition file_path interface_name w =
  match disk w !! file_path with
  | Some (RegularFile content) =>
    if Re.search (interface_prefix ++ Re.literal interface_name) content
    then (Returns true,
          w +line ("✅ Interface " ++ interface_name ++ ": Properly defined"))
    else (Returns false,
          w +line ("❌ Interface " ++ interface_name
                     ++ ": Not properly defined"))
  | Some (Unreadable e) => (Raises e, w)
  | None =>
    (Returns false,
     w +line ("❌ Interface " ++ interface_name ++ ": File " ++ file_path
                ++ " not found"))
  end.
Proof.
  intros Hplain Hn Hp. rewrite (check_interface_definition_cases _ _ _ Hplain).
  destruct (disk w !! file_path) as [[content|e]|]; [|done|apply say_ok; enc].
  destruct (Re.search _ content); apply say_ok; enc.
Qed.

(** On a readable file only the name is printed. *)
Lemma check_interface_definition_readable file_path interface_name content w :
  Re.plain interface_name = true -> encodable interface_name = true ->
  disk w !! file_path = Some (RegularFile content) ->
  check_interface_definition file_path interface_name w =
  if Re.search (interface_prefix ++ Re.literal interface_name) content
  then (Returns true,
        w +line ("✅ Interface " ++ interface_name ++ ": Properly defined"))
  else (Returns false,
        w +line ("❌ Interface " ++ interface_name ++ ": Not properly defined")).
Proof.
  intros Hplain Hn Hfile.
  rewrite (check_interface_definition_cases _ _ _ Hplain), Hfile.
  destruct (Re.search _ content); apply say_ok; enc.
Qed.

Lemma collect_missing_filter required present :
  collect_missing required present
  = List.filter (fun name => negb (present name)) required.
Proof.
  unfold collect_missing.
  enough (forall acc,
    fold_left (fun missing name =>
                 if negb (present name) then missing ++ [name] else missing)
      required acc
    = acc ++ List.filter (fun name => negb (present name)) required)
    as H by apply (H []).
  induction required as [|name required IH]; intros acc; simpl.
  - by rewrite app_nil_r.
  - rewrite IH. destruct (negb (present name)); [|done].
    by rewrite <- app_assoc.
Qed.

Lemma filter_nil_iff {X : Type} (f : X -> bool) (l : list X) :
  List.filter f l = [] <-> forall x, In x l -> f x = false.
Proof.
  induction l as [|x l IH]; simpl; [done|].
  destruct (f x) eqn:Hx.
  - split; [done|]. intros H. specialize (H x (or_introl eq_refl)). congruence.
  - rewrite IH. split.
    + intros H y [<-|Hy]; auto.
    + intros H y Hy. apply H. by right.
Qed.

Lemma check_csproj_references_cases csproj_path w :
  check_csproj_references csproj_path w =
  match disk w !! csproj_path with
  | Some (RegularFile content) =>
    match List.filter (fun package => negb (contains package content))
            required_packages with
    | [] =>
      (Returns true, w +line "✅ All required NuGet packages are referenced")
    | (_ :: _) as missing =>
      (Returns false,
       w +line ("❌ Missing NuGet packages: " ++ join ", " missing))
    end
  | Some (Unreadable e) => (Raises e, w)
  | None => say w false ("❌ Project file not found: " ++ csproj_path)
  end.
Proof.
  unfold check_csproj_references, say. run_primitives.
  destruct (disk w !! csproj_path) as [[content|e]|] eqn:E; run_primitives;
    rewrite ?E; [|done|by destruct (encodable _)].
  rewrite collect_missing_filter.
  pose proof (missing_names_encodable required_packages
                (fun package => negb (contains package content)) ", "
                eq_refl (proj1 required_names_encodable)) as Hjoin.
  destruct (List.filter _ _); [done|].
  by rewrite encodable_app, Hjoin.
Qed.

Lemma check_csproj_references_run csproj_path w :
  encodable csproj_path = true ->
  check_csproj_references csproj_path w =
  match disk w !! csproj_path with
  | Some (RegularFile content) =>
    match List.filter (fun package => negb (contains package content))
            required_packages with
    | [] =>
      (Returns true, w +line "✅ All required NuGet packages are referenced")
    | (_ :: _) as missing =>
      (Returns false,
       w +line ("❌ Missing NuGet packages: " ++ join ", " missing))
    end
  | Some (Unreadable e) => (Raises e, w)
  | None =>
    (Returns false, w +line ("❌ Project file not found: " ++ csproj_path))
  end.
Proof.
  intros Hp. rewrite check_csproj_references_cases.
  destruct (disk w !! csproj_path) as [[content|e]|]; [done|done|].
  apply say_ok; enc.
Qed.

Lemma check_vsix_manifest_cases manifest_path w :
  check_vsix_manifest manifest_path w =
  match disk w !! manifest_path with
  | Some (RegularFile content) =>
    match List.filter
            (fun element : str => negb (contains ("<" ++ element) content))
            required_elements with
    | [] => (Returns true, w +line "✅ VSIX manifest is properly configured")
    | (_ :: _) as missing =>
      (Returns false,
       w +line ("❌ VSIX manifest missing elements: " ++ join ", " missing))
    end
  | Some (Unreadable e) => (Raises e, w)
  | None => say w false ("❌ VSIX manifest not found: " ++ manifest_path)
  end.
Proof.
  unfold check_vsix_manifest, say. run_primitives.
  destruct (disk w !! manifest_path) as [[content|e]|] eqn:E; run_primitives;
    rewrite ?E; [|done|by destruct (encodable _)].
  rewrite collect_missing_filter.
  pose proof (missing_names_encodable required_elements
                (fun element : str => negb (contains ("<" ++ element) content))
                ", " eq_refl (proj2 required_names_encodable)) as Hjoin.
  destruct (List.filter _ _); [done|].
  by rewrite encodable_app, Hjoin.
Qed.

Lemma check_vsix_manifest_run manifest_path w :
  encodable manifest_path = true ->
  check_vsix_manifest manifest_path w =
  match disk w !! manifest_path with
  | Some (RegularFile content) =>
    match List.filter
            (fun element : str => negb (contains ("<" ++ element) content))
            required_elements with
    | [] => (Returns true, w +line "✅ VSIX manifest is properly configured")
    | (_ :: _) as missing =>
      (Returns false,
       w +line ("❌ VSIX manifest missing elements: " ++ join ", " missing))
    end
  | Some (Unreadable e) => (Raises e, w)
  | None =>
    (Returns false, w +line ("❌ VSIX manifest not found: " ++ manifest_path))
  end.
Proof.
  intros Hp. rewrite check_vsix_manifest_cases.
  destruct (disk w !! manifest_path) as [[content|e]|]; [done|done|].
  apply say_ok; enc.
Qed.

Lemma main_integration_run all_checks_passed w :
  main_integration all_checks_passed w =
  let w1 := w +line (nl ++ "🏗️ Service Container Integration:") in
  match disk w !! package_file with
  | Some (RegularFile content) =>
    if integration_markers content then
      (Returns all_checks_passed,
       w1 +line "✅ Service container is properly integrated in main package")
    else
      (Returns false, w1 +line "❌ Service container integration incomplete")
  | Some (Unreadable e) => (Raises e, w1)
  | None => (Returns all_checks_passed, w1)
  end.
Proof.
  unfold main_integration. run_primitives.
  destruct (disk w !! package_file) as [[content|e]|] eqn:E; run_primitives;
    rewrite ?E; [|done|done].
  by destruct (integration_markers content).
Qed.

(* ===================================================================== *)
(** ** Missing files *)
(* ===================================================================== *)





(* ===================================================================== *)
(** ** Required names: packages and manifest elements *)
(* ===================================================================== *)

Section RequiredNames.

Variables (required : list str) (needle : str -> str) (content : str).

Let missing : list str :=
  List.filter (fun name => negb (contains (needle name) content)) required.

Lemma none_missing_iff :
  missing = [] <->
  forall name, In name required -> occurs_in (needle name) content.
Proof.
  unfold missing. rewrite filter_nil_iff. split; intros H name Hin.
  - apply contains_spec. specialize (H name Hin).
    by apply negb_false_iff in H.
  - apply negb_false_iff, contains_spec. by apply H.
Qed.

Lemma missing_exactly name :
  In name missing <->
  In name required /\ ~ occurs_in (needle name) content.
Proof.
  unfold missing. rewrite filter_In, negb_true_iff, contains_false. done.
Qed.

End RequiredNames.

(** C4.  On a readable csproj file, [check_csproj_references] returns
    [True] exactly when each required package name occurs in the content,
    wherever it stands; otherwise it returns [False] and its line lists
    the required names that do not occur, and only those. *)
Theorem csproj_references_iff (csproj_path content : str) (w : world) :
  disk w !! csproj_path = Some (RegularFile content) ->
  exists passed line missing,
    check_csproj_references csproj_path w = (Returns passed, w +line line)
    /\ (passed = true <->
        forall package, In package required_packages ->
                        occurs_in package content)
    /\ (forall package,
          In package missing <->
          In package required_packages /\ ~ occurs_in package content)
    /\ line = (if passed
               then "✅ All required NuGet packages are referenced"
               else "❌ Missing NuGet packages: " ++ join ", " missing).
Proof.
  intros Hfile. rewrite check_csproj_references_cases, Hfile.
  pose proof (none_missing_iff required_packages (fun n => n) content) as Hnone.
  pose proof (missing_exactly required_packages (fun n => n) content) as Hex.
  cbv zeta in Hnone, Hex.
  destruct (List.filter _ required_packages) as [|name missing] eqn:E.
  - exists true, "✅ All required NuGet packages are referenced", [].
    split_and!; [done | | done | done].
    split; [intros _; by apply Hnone | done].
  - eexists false, _, (name :: missing). split_and!; [done | | done | done].
    split; [done | intros H; apply Hnone in H; discriminate].
Qed.

Lemma csproj_references_iff_witness :
  disk partial_csproj_world !! csproj_file = Some (RegularFile partial_csproj)
  /\ exists passed line missing,
       check_csproj_references csproj_file partial_csproj_world
       = (Returns passed, partial_csproj_world +line line)
       /\ (passed = true <->
           forall package, In package required_packages ->
                           occurs_in package partial_csproj)
       /\ (forall package,
             In package missing <->
             In package required_packages
             /\ ~ occurs_in package partial_csproj)
       /\ line = (if passed
                  then "✅ All required NuGet packages are referenced"
                  else "❌ Missing NuGet packages: " ++ join ", " missing).
Proof.
  split; [by vm_compute|].
  apply (csproj_references_iff csproj_file partial_csproj partial_csproj_world).
  by vm_compute.
Defined.

(** On that sample the line names the four packages that do not occur
    as they are spelt, the lower-case one among them. *)
Example csproj_references_case_sensitive :
  check_csproj_references csproj_file partial_csproj_world
  = (Returns false,
     partial_csproj_world
       +line ("❌ Missing NuGet packages: Microsoft.VisualStudio.SDK, "
              ++ "Microsoft.VSSDK.BuildTools, "
              ++ "Microsoft.VisualStudio.Shell.Framework, Newtonsoft.Json")).
Proof. vm_compute. reflexivity. Qed.

(** C5.  On a readable manifest, [check_vsix_manifest] returns [True]
    exactly when, for each required element name, the character [<]
    directly followed by the name occurs in the content; otherwise it
    returns [False] and lists the elements for which it does not. *)
Theorem vsix_manifest_iff (manifest_path content : str) (w : world) :
  disk w !! manifest_path = Some (RegularFile content) ->
  exists passed line missing,
    check_vsix_manifest manifest_path w = (Returns passed, w +line line)
    /\ (passed = true <->
        forall element, In element required_elements ->
                        occurs_in ("<" ++ element) content)
    /\ (forall element,
          In element missing <->
          In element required_elements
          /\ ~ occurs_in ("<" ++ element) content)
    /\ line = (if passed
               then "✅ VSIX manifest is properly configured"
               else "❌ VSIX manifest missing elements: "
                      ++ join ", " missing).
Proof.
  intros Hfile. rewrite check_vsix_manifest_cases, Hfile.
  pose proof (none_missing_iff required_elements (app "<") content) as Hnone.
  pose proof (missing_exactly required_elements (app "<") content) as Hex.
  cbv zeta in Hnone, Hex.
  destruct (List.filter _ required_elements) as [|name missing] eqn:E.
  - exists true, "✅ VSIX manifest is properly configured", [].
    split_and!; [done | | done | done].
    split; [intros _; by apply Hnone | done].
  - eexists false, _, (name :: missing). split_and!; [done | | done | done].
    split; [done | intros H; apply Hnone in H; discriminate].
Qed.

Lemma vsix_manifest_iff_witness :
  disk partial_manifest_world !! manifest_file
  = Some (RegularFile partial_manifest)
  /\ exists passed line missing,
       check_vsix_manifest manifest_file partial_manifest_world
       = (Returns passed, partial_manifest_world +line line)
       /\ (passed = true <->
           forall element, In element required_elements ->
                           occurs_in ("<" ++ element) partial_manifest)
       /\ (forall element,
             In element missing <->
             In element required_elements
             /\ ~ occurs_in ("<" ++ element) partial_manifest)
       /\ line = (if passed
                  then "✅ VSIX manifest is properly configured"
                  else "❌ VSIX manifest missing elements: "
                         ++ join ", " missing).
Proof.
  split; [by vm_compute|].
  apply (vsix_manifest_iff manifest_file partial_manifest
           partial_manifest_world).
  by vm_compute.
Defined.

Example vsix_manifest_needs_the_bracket :
  check_vsix_manifest manifest_file partial_manifest_world
  = (Returns false,
     partial_manifest_world
       +line "❌ VSIX manifest missing elements: Description, Installation, Assets").
Proof. vm_compute. reflexivity. Qed.

(* ===================================================================== *)
(** ** The interface pattern *)
(* ===================================================================== *)

Section InterfacePattern.

Import Re.

Lemma matches_literal_inv lit r m :
  matches (literal lit ++ r) m ->
  exists m', m = lit ++ m' /\ matches r m'.
Proof.
  revert m. induction lit as [|c lit IH]; intros m Hm.
  - by exists m.
  - cbn in Hm. inversion Hm as [|a c' r' s Hc Hs| |]; subst.
    apply IH in Hs as (m' & -> & Hm'). apply N.eqb_eq in Hc as ->.
    by exists m'.
Qed.

Lemma matches_spaces_inv r m :
  matches (Many Space :: r) m ->
  exists ws m', spaces ws /\ m = ws ++ m' /\ matches r m'.
Proof.
  intros Hm. remember (Many Space :: r) as r0 eqn:Hr0.
  induction Hm as [|a c r' s Hc Hs _|a c r' s Hc Hs _|a c r' s Hc Hs IH];
    try discriminate; injection Hr0 as -> ->.
  - exists [c], s. split_and!; [|done|done].
    split; [done|]. cbn in *. by rewrite Hc.
  - destruct (IH eq_refl) as (ws & m' & [Hne Hws] & -> & Hm').
    exists (c :: ws), m'. split_and!; [|done|done].
    split; [done|]. cbn in *. by rewrite Hc, Hws.
Qed.

Lemma matches_nil_inv m : matches [] m -> m = [].
Proof. by inversion 1. Qed.

(** The strings that the interface pattern for a plain name matches. *)
Lemma interface_pattern_matches interface_name m :
  matches (interface_prefix ++ literal interface_name) m <->
  exists ws1 ws2,
    spaces ws1 /\ spaces ws2
    /\ m = "public" ++ ws1 ++ "interface" ++ ws2 ++ interface_name.
Proof.
  unfold interface_prefix. rewrite <- !app_assoc. split.
  - intros H.
    apply matches_literal_inv in H as (m1 & -> & H).
    apply matches_spaces_inv in H as (ws1 & m2 & Hws1 & -> & H).
    apply matches_literal_inv in H as (m3 & -> & H).
    apply matches_spaces_inv in H as (ws2 & m4 & Hws2 & -> & H).
    rewrite <- (app_nil_r (literal interface_name)) in H.
    apply matches_literal_inv in H as (m5 & -> & ->%matches_nil_inv).
    exists ws1, ws2. by rewrite app_nil_r.
  - intros (ws1 & ws2 & Hws1 & Hws2 & ->).
    apply matches_app; [apply matches_literal|].
    apply (matches_spaces ws1); [done|].
    apply matches_app; [apply matches_literal|].
    apply (matches_spaces ws2); [done|]. apply matches_literal.
Qed.

End InterfacePattern.

(** C10, as the code has it.  For a name without special characters of
    the pattern syntax and without a lone surrogate (every identifier is
    such a name), the interface check on a readable file returns [True]
    exactly when the content holds "public", whitespace, "interface",
    whitespace and the name, in this order and adjacent; nothing is asked
    of what follows the name, so a longer identifier that starts with the
    name passes. *)
Theorem interface_check_has_no_trailing_boundary
    (file_path interface_name content : str) (w : world) :
  Re.plain interface_name = true ->
  encodable interface_name = true ->
  disk w !! file_path = Some (RegularFile content) ->
  (check_interface_definition file_path interface_name w
   = (Returns true,
      w +line ("✅ Interface " ++ interface_name ++ ": Properly defined"))
   <->
   exists before ws1 ws2 after,
     Re.spaces ws1 /\ Re.spaces ws2
     /\ content = before ++ "public" ++ ws1 ++ "interface" ++ ws2
                    ++ interface_name ++ after)
  /\ (check_interface_definition file_path interface_name w
      = (Returns true,
         w +line ("✅ Interface " ++ interface_name ++ ": Properly defined"))
      \/ check_interface_definition file_path interface_name w
         = (Returns false,
            w +line ("❌ Interface " ++ interface_name
                       ++ ": Not properly defined"))).
Proof.
  intros Hplain Hname Hfile.
  rewrite (check_interface_definition_readable _ _ _ _ Hplain Hname Hfile).
  destruct (Re.search _ content) eqn:Hsearch; (split; [|by auto]).
  - split; [intros _|done].
    apply search_spec in Hsearch as (before & m & after & -> & Hm).
    apply interface_pattern_matches in Hm as (ws1 & ws2 & H1 & H2 & ->).
    exists before, ws1, ws2, after. by rewrite <- !app_assoc.
  - split; [done|]. intros (before & ws1 & ws2 & after & H1 & H2 & ->).
    assert (Re.search (interface_prefix ++ Re.literal interface_name)
              (before ++ "public" ++ ws1 ++ "interface" ++ ws2
                 ++ interface_name ++ after) = true) as H; [|congruence].
    apply search_spec.
    exists before, ("public" ++ ws1 ++ "interface" ++ ws2 ++ interface_name),
      after.
    split; [by rewrite <- !app_assoc|].
    apply interface_pattern_matches. by exists ws1, ws2.
Qed.

Lemma interface_check_has_no_trailing_boundary_witness :
  Re.plain "IErrorHandler" = true
  /\ encodable "IErrorHandler" = true
  /\ disk longer_interface_world !! interface_file "IErrorHandler"
     = Some (RegularFile longer_interface)
  /\ check_interface_definition (interface_file "IErrorHandler")
       "IErrorHandler" longer_interface_world
     = (Returns true,
        longer_interface_world
          +line "✅ Interface IErrorHandler: Properly defined").
Proof.
  split; [by vm_compute|]. split; [by vm_compute|]. split; [by vm_compute|].
  apply (interface_check_has_no_trailing_boundary
           (interface_file "IErrorHandler") "IErrorHandler" longer_interface
           longer_interface_world);
    [by vm_compute | by vm_compute | by vm_compute |].
  exists ("namespace N {" ++ nl), (nl ++ "  "), " ", "Factory { }".
  split_and!; by vm_compute.
Defined.

(** C10, as specified, fails for a name that is pattern syntax:
    the file holds "public interface " followed by the two characters of
    the name and then "Foo", and the check for that name returns [False],
    because in the pattern the name asks for one more whitespace. *)
Lemma interface_check_reads_name_as_pattern :
  Re.spaces " "
  /\ disk class_name_world !! ("Name.cs" : str)
     = Some (RegularFile ([] ++ "public" ++ " " ++ "interface" ++ " "
                            ++ class_name ++ "Foo"))
  /\ check_interface_definition "Name.cs" class_name class_name_world
     = (Returns false,
        class_name_world +line "❌ Interface \s: Not properly defined").
Proof. split_and!; by vm_compute. Qed.

(** A name that standard output cannot encode is a name without special
    characters like any other.  On a readable file the check for it
    searches, finds nothing, and raises when it prints the name: it
    returns neither result. *)
Example interface_check_cannot_print_a_surrogate :
  Re.plain surrogate_path = true
  /\ encodable surrogate_path = false
  /\ check_interface_definition "Name.cs" surrogate_path
       (World {[ ("Name.cs" : str) := RegularFile "public interface IFoo" ]} [])
     = (Raises UnicodeEncodeError,
        World {[ ("Name.cs" : str) := RegularFile "public interface IFoo" ]} []).
Proof. split_and!; vm_compute; reflexivity. Qed.

(* ===================================================================== *)
(** ** Sections of [main] and the flag they thread *)
(* ===================================================================== *)

Section Sequencing.

Context {A B : Type} (m : M A) (f : A -> M B).
Hypothesis Hm : observer m.
Hypothesis Hf : forall a, observer (f a).

Lemma result_of_bind d :
  result_of (bind m f) d =
  match result_of m d with
  | Returns a => result_of (f a) d
  | Raises e => Raises e
  | Unmodelled => Unmodelled
  end.
Proof.
  unfold result_of at 1. rewrite (bind_run m f _ Hm). cbn [disk stdout].
  destruct (result_of m d) as [a| |]; [|done|done].
  by rewrite (observer_run (f a) _ (Hf a)).
Qed.

Lemma output_of_bind d :
  output_of (bind m f) d =
  output_of m d ++
  match result_of m d with
  | Returns a => output_of (f a) d
  | _ => []
  end.
Proof.
  unfold output_of at 1. rewrite (bind_run m f _ Hm). cbn [disk stdout].
  destruct (result_of m d) as [a| |]; cbn [snd stdout app];
    [|by rewrite app_nil_r..].
  by rewrite (observer_run (f a) _ (Hf a)).
Qed.

End Sequencing.

Lemma tracks_check (check : M bool) :
  observer check ->
  (forall d, result_of check d <> Unmodelled) ->
  tracks (fun acc => ok <- check;; ret (note ok acc)) (passes check).
Proof.
  intros Hobs Hmod acc d.
  rewrite result_of_bind by auto using observer_ret.
  unfold passes. specialize (Hmod d).
  destruct (result_of check d) as [[]| |]; try done.
  - cbn. by rewrite andb_true_r.
  - cbn. by rewrite andb_false_r.
Qed.

Lemma tracks_seq (s1 s2 : bool -> M bool) ok1 ok2 :
  (forall acc, observer (s1 acc)) -> (forall acc, observer (s2 acc)) ->
  tracks s1 ok1 -> tracks s2 ok2 ->
  tracks (fun acc => b <- s1 acc;; s2 b) (fun d => ok1 d && ok2 d).
Proof.
  intros Ho1 Ho2 H1 H2 acc d. rewrite result_of_bind by auto.
  specialize (H1 acc d). destruct (result_of (s1 acc) d) as [b| |];
    [|by rewrite H1|done].
  specialize (H2 b d). destruct (result_of (s2 b) d) as [b'| |]; [| |done].
  - by rewrite H2, H1, andb_assoc.
  - by rewrite H2, andb_false_r.
Qed.

Lemma result_of_print s d :
  encodable s = true -> result_of (print s) d = Returns tt.
Proof. intros H. unfold result_of. by rewrite print_ok. Qed.

Lemma tracks_print s (section : bool -> M bool) ok :
  encodable s = true ->
  (forall acc, observer (section acc)) ->
  tracks section ok -> tracks (fun acc => print s;; section acc) ok.
Proof.
  intros Hs Ho H acc d. rewrite result_of_bind by auto using observer_print.
  rewrite (result_of_print _ _ Hs). apply H.
Qed.

Lemma tracks_for_each {X : Type} (check : X -> M bool) body (xs : list X) :
  (forall x acc, body x acc = (ok <- check x;; ret (note ok acc))) ->
  (forall x, In x xs ->
     observer (check x) /\ forall d, result_of (check x) d <> Unmodelled) ->
  tracks (for_each xs body)
         (fun d => forallb (fun c => passes c d) (map check xs)).
Proof.
  intros Hbody Hxs. induction xs as [|x xs IH].
  - intros acc d. cbn. by rewrite andb_true_r.
  - destruct (Hxs x (or_introl eq_refl)) as [Hobs Hmod].
    assert (forall y, In y xs ->
              observer (check y)
              /\ forall d, result_of (check y) d <> Unmodelled) as Hrest
      by (intros y Hy; apply Hxs; by right).
    assert (forall s, observer (for_each xs body s)) as Hloop.
    { intros s. apply observer_for_each. intros y s' Hy. rewrite Hbody.
      apply observer_bind; [by apply Hrest | intros; apply observer_ret]. }
    change (tracks (fun acc => b <- body x acc;; for_each xs body b)
              (fun d => passes (check x) d
                        && forallb (fun c => passes c d) (map check xs))).
    apply tracks_seq; [|done| |by apply IH].
    + intros acc'. rewrite Hbody.
      apply observer_bind; [done | intros; apply observer_ret].
    + intros acc' d'. rewrite Hbody. by apply tracks_check.
Qed.

Lemma interfaces_plain :
  forall interface_name description,
    In (interface_name, description) interfaces ->
    Re.plain interface_name = true.
Proof.
  intros n descr Hin. unfold interfaces in Hin. cbn [In] in Hin.
  repeat destruct Hin as [[= <- <-]|Hin]; try reflexivity. done.
Qed.

Lemma interface_check_modelled interface_name file_path d :
  Re.plain interface_name = true ->
  result_of (check_interface_definition file_path interface_name) d
  <> Unmodelled.
Proof.
  intros Hplain. unfold result_of.
  rewrite (check_interface_definition_cases _ _ _ Hplain). cbn [disk].
  unfold say.
  destruct (d !! file_path) as [[content|e]|]; [|done|by destruct (encodable _)].
  destruct (Re.search _ content); by destruct (encodable _).
Qed.

Lemma tracks_main_core_files :
  tracks main_core_files (fun d => forallb (fun c => passes c d) core_file_checks).
Proof.
  unfold main_core_files, core_file_checks.
  apply tracks_print; [reflexivity| |].
  { intros acc. apply observer_for_each. intros [p descr] s _. observe. }
  apply tracks_for_each; [by intros [p descr] acc|].
  intros [p descr] _. split; [apply observer_check_file_exists|].
  intros d. unfold result_of. rewrite check_file_exists_cases. unfold say.
  destruct (_ !! p); by destruct (encodable _).
Qed.

Lemma tracks_main_interfaces :
  tracks main_interfaces (fun d => forallb (fun c => passes c d) interface_checks).
Proof.
  unfold main_interfaces, interface_checks.
  apply tracks_print; [reflexivity| |].
  { intros acc. apply observer_for_each. intros [n descr] s _. observe. }
  apply tracks_for_each; [by intros [n descr] acc|].
  intros [n descr] Hin. split; [apply observer_check_interface_definition|].
  intros d. apply interface_check_modelled. by apply (interfaces_plain n descr).
Qed.

Lemma tracks_main_configuration :
  tracks main_configuration
         (fun d => forallb (fun c => passes c d) configuration_checks).
Proof.
  intros acc d. unfold main_configuration, passes, result_of, bind, ret.
  rewrite print_ok by reflexivity.
  cbn [fst snd forallb configuration_checks].
  rewrite !check_csproj_references_run by reflexivity. cbn [disk stdout].
  destruct (d !! csproj_file) as [[content|e]|]; [|done|];
    [destruct (List.filter _ required_packages)|]; cbn [fst snd note negb];
    rewrite !check_vsix_manifest_run by reflexivity; cbn [disk stdout];
    (destruct (d !! manifest_file) as [[content'|e']|];
       [destruct (List.filter _ required_elements)| |]);
    cbn [fst snd note negb andb]; by rewrite ?andb_true_r, ?andb_false_r.
Qed.

Lemma tracks_main_integration :
  tracks main_integration (passes integration_check).
Proof.
  intros acc d. unfold passes, integration_check, result_of.
  rewrite !main_integration_run. cbn [disk stdout].
  destruct (d !! package_file) as [[content|e]|]; [|done|];
    [destruct (integration_markers content)|]; cbn [fst];
    by rewrite ?andb_true_r, ?andb_false_r.
Qed.

Lemma main_final_result acc d : result_of (main_final acc) d = Returns acc.
Proof. unfold main_final, result_of. by destruct acc. Qed.

Lemma tracks_main_final : tracks main_final (fun _ => true).
Proof. intros acc d. by rewrite main_final_result, andb_true_r. Qed.

(* ===================================================================== *)
(** ** The aggregate *)
(* ===================================================================== *)

Lemma passes_true check d : passes check d = true <-> result_of check d = Returns true.
Proof.
  unfold passes. destruct (result_of check d) as [[]| |]; split; congruence.
Qed.

Lemma all_pass_iff d (checks : list (M bool)) :
  forallb (fun check => passes check d) checks = true <->
  forall check, In check checks -> result_of check d = Returns true.
Proof.
  rewrite forallb_forall. split; intros H check Hin; by apply passes_true, H.
Qed.

(** Five existence checks, seven interface checks, two configuration
    checks and the integration check; five required names in each list. *)
Example checklist_length : length checklist = 15.
Proof. reflexivity. Qed.

Example required_names_length :
  length required_packages = 5 /\ length required_elements = 5.
Proof. by split. Qed.

(** [main] returns the conjunction of all checks, or is cut short by an
    exception, and then some check did not pass. *)
Lemma main_tracks d :
  match result_of main d with
  | Returns success => success = forallb (fun check => passes check d) checklist
  | Raises _ => forallb (fun check => passes check d) checklist = false
  | Unmodelled => False
  end.
Proof.
  assert (tracks
            (fun acc =>
               acc <- main_core_files acc;;
               acc <- main_interfaces acc;;
               acc <- main_configuration acc;;
               acc <- main_integration acc;;
               main_final acc)
            (fun d =>
               forallb (fun c => passes c d) core_file_checks
               && (forallb (fun c => passes c d) interface_checks
                   && (forallb (fun c => passes c d) configuration_checks
                       && (passes integration_check d && true))))) as H.
  { refine (tracks_seq main_core_files _ _ _ observer_main_core_files _
              tracks_main_core_files _); [observe|].
    refine (tracks_seq main_interfaces _ _ _ observer_main_interfaces _
              tracks_main_interfaces _); [observe|].
    refine (tracks_seq main_configuration _ _ _ observer_main_configuration _
              tracks_main_configuration _); [observe|].
    exact (tracks_seq main_integration main_final _ _
             observer_main_integration observer_main_final
             tracks_main_integration tracks_main_final). }
  specialize (H true d). cbv beta in H. cbn [andb] in H. unfold main.
  do 2 (rewrite result_of_bind by observe;
        change (result_of (print ?s) d) with (@Returns unit tt); cbv iota).
  unfold checklist. rewrite !forallb_app. cbn [forallb].
  exact H.
Qed.

(** A run always ends with an exit status: that of the conjunction of
    the checks.  It leaves the disk as it was. *)
Lemma run_script_spec d :
  exists p,
    run_script d = Some p
    /\ disk_after p = d
    /\ printed p = output_of main d
    /\ exit_status p
       = (if forallb (fun check => passes check d) checklist then 0 else 1)%Z.
Proof.
  pose proof (main_tracks d) as H. unfold run_script, output_of.
  rewrite (observer_run main _ observer_main) in *. cbn [fst snd disk stdout].
  destruct (result_of main d) as [success| |]; [| |done].
  - eexists. split_and!; try done. cbn [exit_status]. by rewrite <- H.
  - eexists. split_and!; try done. cbn [exit_status]. by rewrite H.
Qed.

Lemma failed_check_fails_the_run d check :
  In check checklist -> passes check d = false ->
  exists p, run_script d = Some p /\ exit_status p = 1%Z.
Proof.
  intros Hin Hfail. destruct (run_script_spec d) as (p & Hrun & _ & _ & Hexit).
  exists p. split; [done|]. rewrite Hexit.
  destruct (forallb _ checklist) eqn:Hall; [|done].
  rewrite forallb_forall in Hall. specialize (Hall check Hin). congruence.
Qed.

Lemma integration_check_result d :
  result_of integration_check d =
  match d !! package_file with
  | Some (RegularFile content) => Returns (integration_markers content)
  | Some (Unreadable e) => Raises e
  | None => Returns true
  end.
Proof.
  unfold integration_check, result_of. rewrite main_integration_run.
  cbn [disk]. destruct (d !! package_file) as [[content|e]|]; [|done|done].
  by destruct (integration_markers content).
Qed.

Lemma checklist_split check :
  In check checklist <->
  In check (core_file_checks ++ interface_checks ++ configuration_checks)
  \/ check = integration_check.
Proof.
  unfold checklist. rewrite !in_app_iff. cbn [In]. intuition congruence.
Qed.

(** C1.  The exit status is 0 exactly when every check of the run
    returned [True]: the fourteen checks of the first three sections,
    and the integration check, for which the main package file has to be
    there with both markers.  The status is the conjunction of the
    checks' results, so one check that fails, anywhere, gives status 1. *)
Theorem exit_status_is_the_and_fold (d : filesystem) :
  exists p,
    run_script d = Some p
    /\ exit_status p
       = (if forallb (fun check => passes check d) checklist then 0 else 1)%Z
    /\ (exit_status p = 0%Z <->
        forall check, In check checklist -> result_of check d = Returns true)
    /\ (exit_status p = 0%Z <->
        (forall check,
           In check (core_file_checks ++ interface_checks
                       ++ configuration_checks) ->
           result_of check d = Returns true)
        /\ exists content,
             d !! package_file = Some (RegularFile content)
             /\ integration_markers content = true)
    /\ (forall check, In check checklist ->
          result_of check d <> Returns true -> exit_status p = 1%Z)
    /\ (forall success, result_of main d = Returns success ->
          success = forallb (fun check => passes check d) checklist).
Proof.
  destruct (run_script_spec d) as (p & Hrun & _ & _ & Hexit).
  assert (exit_status p = 0%Z <->
          forall check, In check checklist -> result_of check d = Returns true)
    as Hiff.
  { rewrite Hexit, <- all_pass_iff. by destruct (forallb _ checklist). }
  exists p. split_and!; [done | done | done | | |].
  - rewrite Hiff. split.
    + intros Hall. split.
      * intros check Hin. apply Hall, checklist_split. by left.
      * assert (result_of (check_file_exists package_file "Main package class")
                  d = Returns true) as Hex.
        { apply Hall, checklist_split. left. apply in_app_iff. left.
          cbn. auto. }
        assert (result_of integration_check d = Returns true) as Hint
          by (apply Hall, checklist_split; by right).
        rewrite integration_check_result in Hint.
        unfold result_of in Hex.
        rewrite check_file_exists_run in Hex by reflexivity.
        cbn [disk] in Hex.
        destruct (d !! package_file) as [[content|e]|]; [|done|done].
        exists content. split; [done | congruence].
    + intros [Hall (content & Hfile & Hmarkers)] check
        [Hin| ->]%checklist_split; [by apply Hall|].
      by rewrite integration_check_result, Hfile, Hmarkers.
  - intros check Hin Hne. rewrite Hexit.
    destruct (forallb _ checklist) eqn:Hall; [|done].
    rewrite all_pass_iff in Hall. by destruct Hne; apply Hall.
  - intros success Hmain. pose proof (main_tracks d) as H.
    by rewrite Hmain in H.
Qed.

(* ===================================================================== *)
(** ** The disk is only read *)
(* ===================================================================== *)

Lemma observer_disk {A : Type} (m : M A) w :
  observer m -> disk (snd (m w)) = disk w.
Proof. intros Hm. by rewrite (observer_run m w Hm). Qed.

(** The model can tell a writer from a reader: opening a file for
    writing creates it. *)
Example opening_for_writing_changes_the_disk :
  disk (snd (read_file "notes.txt" mode_w (World ∅ []))) !! ("notes.txt" : str)
  = Some (RegularFile []).
Proof. by vm_compute. Qed.

(** C8.  No check and no run of [main] changes the disk: the disk after
    is the disk before, also when the run is cut short by an exception. *)
Theorem validator_never_writes (w : world) :
  (forall file_path description,
     disk (snd (check_file_exists file_path description w)) = disk w)
  /\ (forall file_path interface_name,
        disk (snd (check_interface_definition file_path interface_name w))
        = disk w)
  /\ (forall csproj_path,
        disk (snd (check_csproj_references csproj_path w)) = disk w)
  /\ (forall manifest_path,
        disk (snd (check_vsix_manifest manifest_path w)) = disk w)
  /\ disk (snd (main w)) = disk w
  /\ exists p, run_script (disk w) = Some p /\ disk_after p = disk w.
Proof.
  split_and!; intros; try apply observer_disk; auto with observers.
  - apply observer_main.
  - destruct (run_script_spec (disk w)) as (p & Hrun & Hdisk & _). by exists p.
Qed.

(* ===================================================================== *)
(** ** The integration markers *)
(* ===================================================================== *)

Lemma integration_markers_spec content :
  integration_markers content = true <->
  occurs_in "ServiceContainer" content /\ occurs_in "InitializeAsync" content.
Proof.
  unfold integration_markers. by rewrite andb_true_iff, !contains_spec.
Qed.

(** C6.  When the main package file is readable, the integration section
    prints its success line and keeps the flag exactly when both
    "ServiceContainer" and "InitializeAsync" occur in the content.  With
    one of them absent it prints the failure line and the flag becomes
    [False], so that the run exits with status 1. *)
Theorem integration_needs_both_markers
    (content : str) (w : world) (all_checks_passed : bool) :
  disk w !! package_file = Some (RegularFile content) ->
  (integration_markers content = true <->
   occurs_in "ServiceContainer" content /\ occurs_in "InitializeAsync" content)
  /\ main_integration all_checks_passed w
     = (if integration_markers content
        then (Returns all_checks_passed,
              w +line (nl ++ "🏗️ Service Container Integration:")
                +line "✅ Service container is properly integrated in main package")
        else (Returns false,
              w +line (nl ++ "🏗️ Service Container Integration:")
                +line "❌ Service container integration incomplete"))
  /\ (result_of integration_check (disk w) = Returns true <->
      occurs_in "ServiceContainer" content
      /\ occurs_in "InitializeAsync" content)
  /\ (~ (occurs_in "ServiceContainer" content
         /\ occurs_in "InitializeAsync" content) ->
      result_of main (disk w) <> Returns true
      /\ exists p, run_script (disk w) = Some p /\ exit_status p = 1%Z).
Proof.
  intros Hfile.
  assert (result_of integration_check (disk w)
          = Returns (integration_markers content)) as Hcheck.
  { unfold integration_check, result_of. rewrite main_integration_run.
    cbn [disk]. rewrite Hfile. by destruct (integration_markers content). }
  split_and!.
  - apply integration_markers_spec.
  - rewrite main_integration_run, Hfile.
    by destruct (integration_markers content).
  - rewrite Hcheck, <- integration_markers_spec. split; congruence.
  - rewrite <- integration_markers_spec. intros Hno%not_true_is_false.
    assert (passes integration_check (disk w) = false) as Hfail
      by (unfold passes; by rewrite Hcheck, Hno).
    assert (In integration_check checklist) as Hin
      by (unfold checklist; rewrite !in_app_iff; right; right; right; by left).
    split; [|by apply (failed_check_fails_the_run _ integration_check)].
    intros Hmain. pose proof (main_tracks (disk w)) as H.
    rewrite Hmain in H. symmetry in H. rewrite forallb_forall in H.
    specialize (H _ Hin). congruence.
Qed.

Lemma integration_needs_both_markers_witness :
  disk half_integrated_world !! package_file
  = Some (RegularFile half_integrated)
  /\ main_integration true half_integrated_world
     = (Returns false,
        half_integrated_world
          +line (nl ++ "🏗️ Service Container Integration:")
          +line "❌ Service container integration incomplete").
Proof.
  split; [by vm_compute|].
  exact (proj1 (proj2
    (integration_needs_both_markers half_integrated half_integrated_world
       true ltac:(by vm_compute)))).
Defined.

(* ===================================================================== *)
(** ** Complete runs *)
(* ===================================================================== *)

Lemma for_each_complete {X : Type} (check : X -> M bool) body (xs : list X) d :
  (forall x acc, body x acc = (ok <- check x;; ret (note ok acc))) ->
  (forall x, In x xs ->
     observer (check x) /\ exists b, result_of (check x) d = Returns b) ->
  forall acc out,
    for_each xs body acc (World d out)
    = (Returns (acc && forallb (fun c => passes c d) (map check xs)),
       World d (out ++ concat (map (fun c => output_of c d) (map check xs)))).
Proof.
  intros Hbody Hxs. induction xs as [|x xs IH]; intros acc out.
  - cbn. by rewrite andb_true_r, app_nil_r.
  - destruct (Hxs x (or_introl eq_refl)) as [Hobs [b Hb]].
    cbn [for_each map forallb concat]. rewrite Hbody.
    unfold bind at 1. unfold bind at 1.
    rewrite (observer_run (check x) _ Hobs). cbn [disk stdout]. rewrite Hb.
    unfold ret at 1. rewrite IH by (intros y Hy; apply Hxs; by right).
    assert (passes (check x) d = b) as ->
      by (unfold passes; rewrite Hb; by destruct b).
    rewrite <- app_assoc. by destruct b, acc.
Qed.

Lemma observer_returns {A : Type} (m : M A) d a out :
  observer m -> result_of m d = Returns a ->
  m (World d out) = (Returns a, World d (out ++ output_of m d)).
Proof. intros Hm Ha. by rewrite (observer_run m _ Hm), <- Ha. Qed.

Lemma reports_returns check d :
  reports check d -> exists b, result_of check d = Returns b.
Proof. intros (b & line & H & _). exists b. unfold result_of. by rewrite H. Qed.

Lemma starts_with_mark (mark rest : str) : startswith mark (mark ++ rest) = true.
Proof. apply startswith_spec. by exists rest. Qed.

Lemma reports_check_file_exists file_path description d :
  encodable file_path = true -> encodable description = true ->
  reports (check_file_exists file_path description) d.
Proof.
  intros Hp Hdescr. unfold reports. rewrite check_file_exists_run by done.
  cbn [disk stdout]; rewrite ?app_nil_l.
  destruct (d !! file_path).
  - exists true. eexists. split; [done|]. apply (starts_with_mark "✅ ").
  - exists false. eexists. split; [done|]. apply (starts_with_mark "❌ ").
Qed.

Lemma reports_check_interface_definition file_path interface_name d :
  Re.plain interface_name = true ->
  encodable interface_name = true -> encodable file_path = true ->
  (forall e, d !! file_path <> Some (Unreadable e)) ->
  reports (check_interface_definition file_path interface_name) d.
Proof.
  intros Hplain Hn Hp Hread. unfold reports.
  rewrite (check_interface_definition_run _ _ _ Hplain Hn Hp).
  cbn [disk stdout]; rewrite ?app_nil_l.
  destruct (d !! file_path) as [[content|e]|]; [|by destruct (Hread e)|].
  - destruct (Re.search _ content).
    + exists true. eexists. split; [done|]. apply (starts_with_mark "✅ ").
    + exists false. eexists. split; [done|]. apply (starts_with_mark "❌ ").
  - exists false. eexists. split; [done|]. apply (starts_with_mark "❌ ").
Qed.

Lemma reports_check_csproj_references csproj_path d :
  encodable csproj_path = true ->
  (forall e, d !! csproj_path <> Some (Unreadable e)) ->
  reports (check_csproj_references csproj_path) d.
Proof.
  intros Hp Hread. unfold reports.
  rewrite check_csproj_references_run by done.
  cbn [disk stdout]; rewrite ?app_nil_l.
  destruct (d !! csproj_path) as [[content|e]|]; [|by destruct (Hread e)|].
  - destruct (List.filter _ required_packages).
    + exists true. eexists. split; [done|]. apply (starts_with_mark "✅ ").
    + exists false. eexists. split; [done|]. apply (starts_with_mark "❌ ").
  - exists false. eexists. split; [done|]. apply (starts_with_mark "❌ ").
Qed.

Lemma reports_check_vsix_manifest manifest_path d :
  encodable manifest_path = true ->
  (forall e, d !! manifest_path <> Some (Unreadable e)) ->
  reports (check_vsix_manifest manifest_path) d.
Proof.
  intros Hp Hread. unfold reports.
  rewrite check_vsix_manifest_run by done.
  cbn [disk stdout]; rewrite ?app_nil_l.
  destruct (d !! manifest_path) as [[content|e]|]; [|by destruct (Hread e)|].
  - destruct (List.filter _ required_elements).
    + exists true. eexists. split; [done|]. apply (starts_with_mark "✅ ").
    + exists false. eexists. split; [done|]. apply (starts_with_mark "❌ ").
  - exists false. eexists. split; [done|]. apply (starts_with_mark "❌ ").
Qed.

Lemma openable_interface d interface_name description :
  openable d -> In (interface_name, description) interfaces ->
  forall e, d !! interface_file interface_name <> Some (Unreadable e).
Proof.
  intros Hd Hin e. apply Hd. unfold opened_files. apply in_app_iff. left.
  apply in_map_iff. by exists (interface_name, description).
Qed.

Lemma openable_configuration d :
  openable d ->
  (forall e, d !! csproj_file <> Some (Unreadable e))
  /\ (forall e, d !! manifest_file <> Some (Unreadable e))
  /\ (forall e, d !! package_file <> Some (Unreadable e)).
Proof.
  intros Hd. split_and!; intros e; apply Hd; unfold opened_files;
    apply in_app_iff; right; cbn; auto.
Qed.

(** With every opened file readable, each of the fourteen checks of the
    first three sections reports. *)
Lemma openable_reports d check :
  openable d ->
  In check (core_file_checks ++ interface_checks ++ configuration_checks) ->
  reports check d.
Proof.
  intros Hd. rewrite !in_app_iff.
  unfold core_file_checks, interface_checks, configuration_checks.
  rewrite !in_map_iff. intros [([p descr] & <- & Hin) | [([n descr] & <- & Hin) | Hin]].
  - destruct (core_files_encodable p descr Hin).
    by apply reports_check_file_exists.
  - destruct (interfaces_encodable n descr Hin).
    apply reports_check_interface_definition; [|done|done|].
    + by apply (interfaces_plain n descr).
    + by apply (openable_interface d n descr).
  - destruct (openable_configuration d Hd) as (Hc & Hm & _).
    destruct Hin as [<-|[<-|[]]].
    + by apply reports_check_csproj_references.
    + by apply reports_check_vsix_manifest.
Qed.

Lemma main_core_files_complete d acc out :
  main_core_files acc (World d out)
  = (Returns (acc && forallb (fun c => passes c d) core_file_checks),
     World d (out ++ (nl ++ "📁 Core Project Files:") ++ nl
                  ++ concat (map (fun c => output_of c d) core_file_checks))).
Proof.
  unfold main_core_files, core_file_checks, bind at 1.
  rewrite print_ok by reflexivity. cbn [disk stdout].
  rewrite (for_each_complete (fun '(p, descr) => check_file_exists p descr)).
  - by rewrite <- !app_assoc.
  - by intros [p descr] a.
  - intros [p descr] Hin. split; [apply observer_check_file_exists|].
    destruct (core_files_encodable p descr Hin).
    by apply reports_returns, reports_check_file_exists.
Qed.

Lemma main_interfaces_complete d acc out :
  openable d ->
  main_interfaces acc (World d out)
  = (Returns (acc && forallb (fun c => passes c d) interface_checks),
     World d (out ++ (nl ++ "🔌 Interface Definitions:") ++ nl
                  ++ concat (map (fun c => output_of c d) interface_checks))).
Proof.
  intros Hd. unfold main_interfaces, interface_checks, bind at 1.
  rewrite print_ok by reflexivity. cbn [disk stdout].
  rewrite (for_each_complete
             (fun '(n, _) => check_interface_definition (interface_file n) n)).
  - by rewrite <- !app_assoc.
  - by intros [n descr] a.
  - intros [n descr] Hin. split; [apply observer_check_interface_definition|].
    destruct (interfaces_encodable n descr Hin).
    apply reports_returns, reports_check_interface_definition; [|done|done|].
    + by apply (interfaces_plain n descr).
    + by apply (openable_interface d n descr).
Qed.

Lemma main_configuration_complete d acc out :
  openable d ->
  main_configuration acc (World d out)
  = (Returns (acc && forallb (fun c => passes c d) configuration_checks),
     World d (out ++ (nl ++ "⚙️ Project Configuration:") ++ nl
                  ++ concat (map (fun c => output_of c d) configuration_checks))).
Proof.
  intros Hd. destruct (openable_configuration d Hd) as (Hc & Hm & _).
  destruct (reports_returns _ d
              (reports_check_csproj_references csproj_file d eq_refl Hc)) as [b1 Hb1].
  destruct (reports_returns _ d
              (reports_check_vsix_manifest manifest_file d eq_refl Hm)) as [b2 Hb2].
  unfold main_configuration, bind, ret.
  rewrite print_ok by reflexivity. cbn [disk stdout].
  rewrite (observer_returns _ d b1) by auto with observers.
  rewrite (observer_returns _ d b2) by auto with observers.
  cbn [configuration_checks map concat forallb]. unfold passes.
  rewrite Hb1, Hb2, <- !app_assoc, app_nil_r.
  by destruct b1, b2, acc.
Qed.

Lemma main_integration_complete d acc out :
  openable d ->
  main_integration acc (World d out)
  = (Returns (acc && passes integration_check d),
     World d (out ++ output_of integration_check d)).
Proof.
  intros Hd. destruct (openable_configuration d Hd) as (_ & _ & Hp).
  unfold passes, integration_check, result_of, output_of.
  rewrite !main_integration_run. cbn [disk stdout].
  destruct (d !! package_file) as [[content|e]|]; [|by destruct (Hp e)|].
  - destruct (integration_markers content); cbn [fst snd stdout app];
      by rewrite ?andb_true_r, ?andb_false_r, <- ?app_assoc.
  - cbn [fst snd stdout app]. by rewrite andb_true_r.
Qed.

Lemma main_final_complete d acc out :
  main_final acc (World d out)
  = (Returns acc, World d (out ++ output_of (main_final acc) d)).
Proof.
  apply observer_returns; [apply observer_main_final | apply main_final_result].
Qed.

(** With every opened file readable, [main] returns, and its output is
    made of the sections' outputs in the order of the script. *)
Lemma main_complete d :
  openable d ->
  main (World d [])
  = (Returns (forallb (fun c => passes c d) checklist),
     World d
       ("🔍 Validating Visual Studio Extension Project Structure" ++ nl
        ++ times "=" 60 ++ nl
        ++ (nl ++ "📁 Core Project Files:") ++ nl
        ++ concat (map (fun c => output_of c d) core_file_checks)
        ++ (nl ++ "🔌 Interface Definitions:") ++ nl
        ++ concat (map (fun c => output_of c d) interface_checks)
        ++ (nl ++ "⚙️ Project Configuration:") ++ nl
        ++ concat (map (fun c => output_of c d) configuration_checks)
        ++ output_of integration_check d
        ++ output_of
             (main_final (forallb (fun c => passes c d) checklist)) d)).
Proof.
  intros Hd. unfold main, bind.
  rewrite !print_ok by reflexivity. cbn [disk stdout].
  rewrite main_core_files_complete.
  rewrite main_interfaces_complete by done.
  rewrite main_configuration_complete by done.
  rewrite main_integration_complete by done.
  rewrite main_final_complete.
  unfold checklist. rewrite !forallb_app. cbn [forallb andb].
  rewrite !andb_assoc, andb_true_r, <- !app_assoc. reflexivity.
Qed.

(** C2, as the code has it.  When every file that the script opens is
    readable, the run completes; each of the five existence checks, the
    seven interface checks, the csproj check and the manifest check
    prints its own result line, whatever the earlier results were, and
    the output of the run is these lines in the order of the script
    between the section headers.  The integration section prints a result
    line exactly when the main package file exists. *)
Theorem every_check_reports_when_files_open (d : filesystem) :
  openable d ->
  (forall check,
     In check (core_file_checks ++ interface_checks ++ configuration_checks) ->
     reports check d)
  /\ main (World d [])
     = (Returns (forallb (fun check => passes check d) checklist),
        World d
          ("🔍 Validating Visual Studio Extension Project Structure" ++ nl
           ++ times "=" 60 ++ nl
           ++ (nl ++ "📁 Core Project Files:") ++ nl
           ++ concat (map (fun check => output_of check d) core_file_checks)
           ++ (nl ++ "🔌 Interface Definitions:") ++ nl
           ++ concat (map (fun check => output_of check d) interface_checks)
           ++ (nl ++ "⚙️ Project Configuration:") ++ nl
           ++ concat (map (fun check => output_of check d)
                        configuration_checks)
           ++ output_of integration_check d
           ++ output_of
                (main_final
                   (forallb (fun check => passes check d) checklist)) d))
  /\ output_of integration_check d
     = (nl ++ "🏗️ Service Container Integration:") ++ nl
       ++ match d !! package_file with
          | Some (RegularFile content) =>
            (if integration_markers content
             then "✅ Service container is properly integrated in main package"
             else "❌ Service container integration incomplete") ++ nl
          | _ => []
          end.
Proof.
  intros Hd. split_and!.
  - intros check Hin. by apply openable_reports.
  - by apply main_complete.
  - unfold output_of, integration_check. rewrite main_integration_run.
    cbn [disk stdout]. destruct (d !! package_file) as [[content|e]|].
    + by destruct (integration_markers content).
    + done.
    + done.
Qed.

Lemma complete_project_openable : openable complete_project.
Proof.
  intros path e Hin. unfold opened_files in Hin. cbn [map interfaces app In] in Hin.
  repeat destruct Hin as [<-|Hin]; try (vm_compute; discriminate).
  destruct Hin.
Qed.

Lemma every_check_reports_when_files_open_witness :
  openable complete_project
  /\ output_of integration_check complete_project
     = (nl ++ "🏗️ Service Container Integration:") ++ nl
       ++ "✅ Service container is properly integrated in main package" ++ nl.
Proof.
  split; [exact complete_project_openable|].
  etransitivity;
    [exact (proj2 (proj2
       (every_check_reports_when_files_open complete_project
          complete_project_openable)))|].
  vm_compute. reflexivity.
Defined.

Example complete_project_passes :
  exit_status <$> run_script complete_project = Some 0%Z.
Proof. vm_compute. reflexivity. Qed.

(** C2, as specified, fails twice.  On the empty disk the run completes
    and the integration section prints its header and no result; with a
    directory in the place of the first interface file the run is cut
    short by [IsADirectoryError] in the first interface check, and
    nothing after it is reported. *)
Lemma integration_unreported_and_run_cut_short :
  (result_of main empty_disk = Returns false
   /\ output_of main empty_disk =
"🔍 Validating Visual Studio Extension Project Structure
============================================================

📁 Core Project Files:
❌ Project file: AiderVSExtension/AiderVSExtension.csproj - NOT FOUND
❌ Main package class: AiderVSExtension/AiderVSExtensionPackage.cs - NOT FOUND
❌ VSIX manifest: AiderVSExtension/source.extension.vsixmanifest - NOT FOUND
❌ Assembly info: AiderVSExtension/Properties/AssemblyInfo.cs - NOT FOUND
❌ Service container: AiderVSExtension/Services/ServiceContainer.cs - NOT FOUND

🔌 Interface Definitions:
❌ Interface IAiderService: File AiderVSExtension/Interfaces/IAiderService.cs not found
❌ Interface IConfigurationService: File AiderVSExtension/Interfaces/IConfigurationService.cs not found
❌ Interface IFileContextService: File AiderVSExtension/Interfaces/IFileContextService.cs not found
❌ Interface IAIModelManager: File AiderVSExtension/Interfaces/IAIModelManager.cs not found
❌ Interface ICompletionProvider: File AiderVSExtension/Interfaces/ICompletionProvider.cs not found
❌ Interface IErrorHandler: File AiderVSExtension/Interfaces/IErrorHandler.cs not found
❌ Interface IMessageRenderer: File AiderVSExtension/Interfaces/IMessageRenderer.cs not found

⚙️ Project Configuration:
❌ Project file not found: AiderVSExtension/AiderVSExtension.csproj
❌ VSIX manifest not found: AiderVSExtension/source.extension.vsixmanifest

🏗️ Service Container Integration:

============================================================
❌ Some validation checks FAILED!
Please review the issues above and fix them.
")
  /\ (result_of main directory_for_interface = Raises IsADirectoryError
      /\ output_of main directory_for_interface =
"🔍 Validating Visual Studio Extension Project Structure
============================================================

📁 Core Project Files:
❌ Project file: AiderVSExtension/AiderVSExtension.csproj - NOT FOUND
❌ Main package class: AiderVSExtension/AiderVSExtensionPackage.cs - NOT FOUND
❌ VSIX manifest: AiderVSExtension/source.extension.vsixmanifest - NOT FOUND
❌ Assembly info: AiderVSExtension/Properties/AssemblyInfo.cs - NOT FOUND
❌ Service container: AiderVSExtension/Services/ServiceContainer.cs - NOT FOUND

🔌 Interface Definitions:
").
Proof. split_and!; vm_compute; reflexivity. Qed.

(* ===================================================================== *)
(** ** A missing main package file *)
(* ===================================================================== *)

(** C9, as the code has it.  When the main package file does not exist,
    its existence check returns [False], the integration section prints
    its header and nothing else and leaves the flag alone, and [main]
    never returns [True]: it returns [False] whenever every file it opens
    is readable, and in every case the exit status is 1. *)
Theorem missing_package_file_fails_the_run (d : filesystem) :
  d !! package_file = None ->
  result_of (check_file_exists package_file "Main package class") d
  = Returns false
  /\ (forall all_checks_passed out,
        main_integration all_checks_passed (World d out)
        = (Returns all_checks_passed,
           World d (out ++ (nl ++ "🏗️ Service Container Integration:") ++ nl)))
  /\ result_of main d <> Returns true
  /\ (openable d -> result_of main d = Returns false)
  /\ (exists p, run_script d = Some p /\ exit_status p = 1%Z).
Proof.
  intros Hnone.
  assert (result_of (check_file_exists package_file "Main package class") d
          = Returns false) as Hcheck.
  { unfold result_of. rewrite check_file_exists_run by reflexivity.
    cbn [disk]. by rewrite Hnone. }
  assert (In (check_file_exists package_file "Main package class") checklist)
    as Hin.
  { unfold checklist. apply in_app_iff. left. cbn. auto. }
  assert (forallb (fun check => passes check d) checklist = false) as Hall.
  { apply not_true_is_false. intros H. rewrite forallb_forall in H.
    specialize (H _ Hin). unfold passes in H. by rewrite Hcheck in H. }
  split_and!.
  - done.
  - intros acc out. rewrite main_integration_run. cbn [disk stdout].
    by rewrite Hnone.
  - intros Hmain. pose proof (main_tracks d) as H. rewrite Hmain in H.
    congruence.
  - intros Hd. unfold result_of. by rewrite (main_complete d Hd), Hall.
  - apply (failed_check_fails_the_run d _ Hin). unfold passes.
    by rewrite Hcheck.
Qed.

Lemma missing_package_file_fails_the_run_witness :
  empty_disk !! package_file = None
  /\ result_of main empty_disk <> Returns true
  /\ exists p, run_script empty_disk = Some p /\ exit_status p = 1%Z.
Proof.
  split; [reflexivity|].
  pose proof (missing_package_file_fails_the_run empty_disk eq_refl)
    as (_ & _ & Hne & _ & Hexit).
  by split.
Defined.

(** C9, as specified, fails when the run is cut short: the main package
    file does not exist, a directory stands in the place of the first
    interface file, and [main] raises instead of returning [False]. *)
Lemma missing_package_file_and_run_cut_short :
  directory_for_interface !! package_file = None
  /\ result_of main directory_for_interface = Raises IsADirectoryError.
Proof. split; vm_compute; reflexivity. Qed.


(* ===================================================================== *)
(** * Further properties of the checks *)
(* ===================================================================== *)



Lemma prints_say (check : M bool) (passed : bool) (rest : str) w :
  check w = say w passed ((if passed then "✅ " else "❌ ") ++ rest) ->
  prints_its_result check w.
Proof.
  intros Hcheck. unfold prints_its_result. rewrite Hcheck. unfold say.
  destruct (encodable _); split_and!; try done.
  - intros passed' w' [= <- <-]. eexists. split; [done|].
    apply starts_with_mark.
  - by intros e w' [= _ <-].
Qed.

Lemma prints_returned (check : M bool) (passed : bool) (rest : str) w :
  check w = (Returns passed, w +line ((if passed then "✅ " else "❌ ") ++ rest)) ->
  prints_its_result check w.
Proof.
  intros Hcheck. unfold prints_its_result. rewrite Hcheck.
  split_and!; try done.
  intros passed' w' [= <- <-]. eexists. split; [done|]. apply starts_with_mark.
Qed.

Lemma prints_raised (check : M bool) (e : exn) w :
  check w = (Raises e, w) -> prints_its_result check w.
Proof.
  intros Hcheck. unfold prints_its_result. rewrite Hcheck.
  split_and!; try done. by intros e' w' [= _ <-].
Qed.

(** The names without special characters are among them, and so are the
    seven names of [main]. *)
Lemma plain_pattern_modelled interface_name :
  Re.plain interface_name = true -> pattern_modelled interface_name.
Proof.
  intros Hplain. unfold pattern_modelled.
  by rewrite interface_pattern_compile, (re_compile_plain _ Hplain).
Qed.

(** X2.  Whatever the disk and the arguments, a check returns or raises;
    when it returns it has printed exactly one line, which starts with
    the success mark when the result is [True] and with the failure mark
    when it is [False]; when it raises it has printed nothing.  For the
    interface check this is said of the names whose pattern is in the
    modelled fragment. *)
Theorem each_check_prints_its_result (w : world) :
  (forall file_path description,
     prints_its_result (check_file_exists file_path description) w)
  /\ (forall file_path interface_name,
        pattern_modelled interface_name ->
        prints_its_result
          (check_interface_definition file_path interface_name) w)
  /\ (forall csproj_path,
        prints_its_result (check_csproj_references csproj_path) w)
  /\ (forall manifest_path,
        prints_its_result (check_vsix_manifest manifest_path) w).
Proof.
  split_and!.
  - intros p descr. pose proof (check_file_exists_cases p descr w) as H.
    destruct (disk w !! p).
    + by apply (prints_say _ true (descr ++ ": " ++ p)).
    + by apply (prints_say _ false (descr ++ ": " ++ p ++ " - NOT FOUND")).
  - intros p n Hn. unfold pattern_modelled in Hn.
    destruct (Re.re_compile _) as [r|] eqn:Hr; [|done].
    destruct (disk w !! p) as [[content|e]|] eqn:E.
    + destruct (Re.search r content) eqn:Hs.
      * apply (prints_say _ true ("Interface " ++ n ++ ": Properly defined")).
        unfold check_interface_definition, re_search, say. rewrite Hr.
        run_primitives. rewrite E. run_primitives. rewrite E, Hs.
        by destruct (encodable _).
      * apply (prints_say _ false
                 ("Interface " ++ n ++ ": Not properly defined")).
        unfold check_interface_definition, re_search, say. rewrite Hr.
        run_primitives. rewrite E. run_primitives. rewrite E, Hs.
        by destruct (encodable _).
    + apply (prints_raised _ e).
      unfold check_interface_definition. run_primitives. rewrite E.
      run_primitives. by rewrite E.
    + apply (prints_say _ false
               ("Interface " ++ n ++ ": File " ++ p ++ " not found")).
      unfold check_interface_definition, say. run_primitives. rewrite E.
      run_primitives. by destruct (encodable _).
  - intros p. pose proof (check_csproj_references_cases p w) as H.
    destruct (disk w !! p) as [[content|e]|].
    + destruct (List.filter _ required_packages) as [|name missing].
      * by apply (prints_returned _ true
                    "All required NuGet packages are referenced").
      * by apply (prints_returned _ false
                    ("Missing NuGet packages: " ++ join ", " (name :: missing))).
    + by apply (prints_raised _ e).
    + by apply (prints_say _ false ("Project file not found: " ++ p)).
  - intros p. pose proof (check_vsix_manifest_cases p w) as H.
    destruct (disk w !! p) as [[content|e]|].
    + destruct (List.filter _ required_elements) as [|name missing].
      * by apply (prints_returned _ true
                    "VSIX manifest is properly configured").
      * by apply (prints_returned _ false
                    ("VSIX manifest missing elements: "
                       ++ join ", " (name :: missing))).
    + by apply (prints_raised _ e).
    + by apply (prints_say _ false ("VSIX manifest not found: " ++ p)).
Qed.

(** The name [\s] is not plain and its pattern is in the fragment: on
    the file that spells the name out, the check returns [False] behind
    one failure line. *)
Lemma each_check_prints_its_result_witness :
  pattern_modelled class_name
  /\ prints_its_result (check_interface_definition "Name.cs" class_name)
       class_name_world.
Proof.
  assert (pattern_modelled class_name) as H by (vm_compute; discriminate).
  split; [exact H|].
  exact (proj1 (proj2 (each_check_prints_its_result class_name_world))
           "Name.cs" class_name H).
Defined.

(* ===================================================================== *)
(** ** Adding text to a file *)
(* ===================================================================== *)

Lemma occurs_in_extend needle content before after :
  occurs_in needle content -> occurs_in needle (before ++ content ++ after).
Proof.
  intros (a & b & ->). exists (before ++ a), (b ++ after).
  by rewrite <- !app_assoc.
Qed.

Lemma search_extend r content before after :
  Re.search r content = true ->
  Re.search r (before ++ content ++ after) = true.
Proof.
  rewrite !search_spec. intros (a & m & b & -> & Hm).
  exists (before ++ a), m, (b ++ after). by rewrite <- !app_assoc.
Qed.

Lemma none_missing_extend required (needle : str -> str) content before after :
  List.filter (fun name => negb (contains (needle name) content)) required = [] ->
  List.filter
    (fun name => negb (contains (needle name) (before ++ content ++ after)))
    required = [].
Proof.
  rewrite !filter_nil_iff. intros H name Hin.
  apply negb_false_iff, contains_spec, occurs_in_extend, contains_spec,
    negb_false_iff. by apply H.
Qed.

(** X3.  Text added in front of or behind the content of a file never
    turns a passing check into a failing one: this holds for the
    interface check (names without special characters), the csproj
    check, the manifest check and the condition of the integration
    check. *)
Theorem added_text_keeps_a_check_passing
    (path content before after : str) (w w' : world) :
  disk w !! path = Some (RegularFile content) ->
  disk w' !! path = Some (RegularFile (before ++ content ++ after)) ->
  (forall interface_name,
     Re.plain interface_name = true ->
     fst (check_interface_definition path interface_name w) = Returns true ->
     fst (check_interface_definition path interface_name w') = Returns true)
  /\ (fst (check_csproj_references path w) = Returns true ->
      fst (check_csproj_references path w') = Returns true)
  /\ (fst (check_vsix_manifest path w) = Returns true ->
      fst (check_vsix_manifest path w') = Returns true)
  /\ (integration_markers content = true ->
      integration_markers (before ++ content ++ after) = true).
Proof.
  intros Hw Hw'. split_and!.
  - intros n Hplain. rewrite !(check_interface_definition_cases _ _ _ Hplain).
    rewrite Hw, Hw'. unfold say.
    destruct (Re.search _ content) eqn:Hs;
      [|by destruct (encodable _)].
    rewrite (search_extend _ _ before after Hs).
    by destruct (encodable _).
  - rewrite !check_csproj_references_cases, Hw, Hw'.
    destruct (List.filter _ required_packages) eqn:Hf; [|discriminate].
    by rewrite (none_missing_extend required_packages (fun n => n)
                  content before after Hf).
  - rewrite !check_vsix_manifest_cases, Hw, Hw'.
    destruct (List.filter _ required_elements) eqn:Hf; [|discriminate].
    by rewrite (none_missing_extend required_elements (app "<")
                  content before after Hf).
  - rewrite !integration_markers_spec. intros [H1 H2].
    split; by apply occurs_in_extend.
Qed.

Lemma added_text_keeps_a_check_passing_witness :
  disk longer_interface_world !! interface_file "IErrorHandler"
  = Some (RegularFile longer_interface)
  /\ disk annotated_interface_world !! interface_file "IErrorHandler"
     = Some (RegularFile ("// generated" ++ longer_interface ++ "// end"))
  /\ fst (check_interface_definition (interface_file "IErrorHandler")
            "IErrorHandler" annotated_interface_world)
     = Returns true.
Proof.
  split; [vm_compute; reflexivity|]. split; [vm_compute; reflexivity|].
  apply (proj1
    (added_text_keeps_a_check_passing (interface_file "IErrorHandler")
       longer_interface "// generated" "// end" longer_interface_world
       annotated_interface_world
       ltac:(vm_compute; reflexivity) ltac:(vm_compute; reflexivity)));
    vm_compute; reflexivity.
Defined.

(* ===================================================================== *)
(** ** The list of missing names *)
(* ===================================================================== *)

Lemma filter_sublist {X : Type} (f : X -> bool) (l : list X) :
  sublist (List.filter f l) l.
Proof.
  induction l as [|x l IH]; cbn [List.filter]; [constructor|].
  destruct (f x); by constructor.
Qed.

Lemma required_names_distinct :
  NoDup required_packages /\ NoDup required_elements.
Proof. split; apply (bool_decide_unpack _); vm_compute; reflexivity. Qed.

Lemma join_comma first others :
  join ", " (first :: others)
  = first ++ concat (map (fun name => ", " ++ name) others).
Proof.
  revert first.
  induction others as [|name others IH]; intros first.
  - cbn [join map concat]. by rewrite app_nil_r.
  - change (join ", " (first :: name :: others))
      with (first ++ ", " ++ join ", " (name :: others)).
    rewrite IH. cbn [map concat]. by rewrite <- !app_assoc.
Qed.

(** X4.  When the csproj check or the manifest check fails on a
    readable file, its line is the failure text followed by names, the
    first as it is and each further one behind a comma and a space.  The
    names are exactly the required names that do not occur in the content
    (for the manifest: not behind a [<]), in the order of the required
    list and each once. *)
Theorem missing_names_keep_the_required_order
    (path content : str) (w : world) :
  disk w !! path = Some (RegularFile content) ->
  (fst (check_csproj_references path w) = Returns false ->
   exists first others,
     snd (check_csproj_references path w)
     = w +line ("❌ Missing NuGet packages: " ++ first
                  ++ concat (map (fun name => ", " ++ name) others))
     /\ (forall name,
           In name (first :: others) <->
           In name required_packages /\ ~ occurs_in name content)
     /\ sublist (first :: others) required_packages
     /\ NoDup (first :: others))
  /\ (fst (check_vsix_manifest path w) = Returns false ->
      exists first others,
        snd (check_vsix_manifest path w)
        = w +line ("❌ VSIX manifest missing elements: " ++ first
                     ++ concat (map (fun name => ", " ++ name) others))
        /\ (forall name,
              In name (first :: others) <->
              In name required_elements /\ ~ occurs_in ("<" ++ name) content)
        /\ sublist (first :: others) required_elements
        /\ NoDup (first :: others)).
Proof.
  intros Hfile. destruct required_names_distinct as [Hp He]. split.
  - rewrite check_csproj_references_cases, Hfile.
    pose proof (filter_sublist (fun package => negb (contains package content))
                  required_packages) as Hsub.
    pose proof (missing_exactly required_packages (fun n => n) content) as Hex.
    cbv zeta in Hex.
    destruct (List.filter _ required_packages) as [|first others];
      [discriminate|].
    intros _. exists first, others. split_and!; try done.
    + cbn [snd]. by rewrite join_comma.
    + by apply (sublist_NoDup _ required_packages).
  - rewrite check_vsix_manifest_cases, Hfile.
    pose proof (filter_sublist
                  (fun element : str => negb (contains ("<" ++ element) content))
                  required_elements) as Hsub.
    pose proof (missing_exactly required_elements (app "<") content) as Hex.
    cbv zeta in Hex.
    destruct (List.filter _ required_elements) as [|first others];
      [discriminate|].
    intros _. exists first, others. split_and!; try done.
    + cbn [snd]. by rewrite join_comma.
    + by apply (sublist_NoDup _ required_elements).
Qed.

Lemma missing_names_keep_the_required_order_witness :
  disk partial_csproj_world !! csproj_file = Some (RegularFile partial_csproj)
  /\ fst (check_csproj_references csproj_file partial_csproj_world)
     = Returns false
  /\ exists first others,
       snd (check_csproj_references csproj_file partial_csproj_world)
       = partial_csproj_world
           +line ("❌ Missing NuGet packages: " ++ first
                    ++ concat (map (fun name => ", " ++ name) others))
       /\ (forall name,
             In name (first :: others) <->
             In name required_packages /\ ~ occurs_in name partial_csproj)
       /\ sublist (first :: others) required_packages
       /\ NoDup (first :: others).
Proof.
  split; [vm_compute; reflexivity|]. split; [vm_compute; reflexivity|].
  apply (missing_names_keep_the_required_order csproj_file partial_csproj
           partial_csproj_world); vm_compute; reflexivity.
Defined.

(* ===================================================================== *)
(** * Further properties of a run *)
(* ===================================================================== *)

(** ** When a run is cut short *)

Lemma relays_check (check : M bool) :
  observer check ->
  (forall d, result_of check d <> Unmodelled) ->
  relays (fun acc => ok <- check;; ret (note ok acc)) [check].
Proof.
  intros Hobs Hmod acc d.
  rewrite result_of_bind by auto using observer_ret.
  specialize (Hmod d). destruct (result_of check d) as [b|e|] eqn:Hc; [| |done].
  - cbn. intros c [<-|[]]. by exists b.
  - exists check. split; [by left | done].
Qed.

Lemma relays_seq (s1 s2 : bool -> M bool) cs1 cs2 :
  (forall acc, observer (s1 acc)) -> (forall acc, observer (s2 acc)) ->
  relays s1 cs1 -> relays s2 cs2 ->
  relays (fun acc => b <- s1 acc;; s2 b) (cs1 ++ cs2).
Proof.
  intros Ho1 Ho2 H1 H2 acc d. rewrite result_of_bind by auto.
  specialize (H1 acc d). destruct (result_of (s1 acc) d) as [b|e|]; [| |done].
  - specialize (H2 b d). destruct (result_of (s2 b) d) as [b'|e|]; [| |done].
    + intros c [Hc|Hc]%in_app_iff; auto.
    + destruct H2 as (c & Hc & Hr). exists c. split; [|done].
      apply in_app_iff. by right.
  - destruct H1 as (c & Hc & Hr). exists c. split; [|done].
    apply in_app_iff. by left.
Qed.

Lemma relays_print s (section : bool -> M bool) checks :
  encodable s = true ->
  (forall acc, observer (section acc)) ->
  relays section checks -> relays (fun acc => print s;; section acc) checks.
Proof.
  intros Hs Ho H acc d. rewrite result_of_bind by auto using observer_print.
  rewrite (result_of_print _ _ Hs). apply H.
Qed.

Lemma relays_for_each {X : Type} (check : X -> M bool) body (xs : list X) :
  (forall x acc, body x acc = (ok <- check x;; ret (note ok acc))) ->
  (forall x, In x xs ->
     observer (check x) /\ forall d, result_of (check x) d <> Unmodelled) ->
  relays (for_each xs body) (map check xs).
Proof.
  intros Hbody Hxs. induction xs as [|x xs IH].
  - intros acc d. by cbn.
  - destruct (Hxs x (or_introl eq_refl)) as [Hobs Hmod].
    assert (forall y, In y xs ->
              observer (check y)
              /\ forall d, result_of (check y) d <> Unmodelled) as Hrest
      by (intros y Hy; apply Hxs; by right).
    assert (forall s, observer (for_each xs body s)) as Hloop.
    { intros s. apply observer_for_each. intros y s' Hy. rewrite Hbody.
      apply observer_bind; [by apply Hrest | intros; apply observer_ret]. }
    change (relays (fun acc => b <- body x acc;; for_each xs body b)
              ([check x] ++ map check xs)).
    apply relays_seq; [|done| |by apply IH].
    + intros acc'. rewrite Hbody.
      apply observer_bind; [done | intros; apply observer_ret].
    + intros acc' d'. rewrite Hbody. by apply relays_check.
Qed.

Lemma relays_main_core_files : relays main_core_files core_file_checks.
Proof.
  unfold main_core_files, core_file_checks.
  apply relays_print; [reflexivity| |].
  { intros acc. apply observer_for_each. intros [p descr] s _. observe. }
  apply relays_for_each; [by intros [p descr] acc|].
  intros [p descr] _. split; [apply observer_check_file_exists|].
  intros d. unfold result_of. rewrite check_file_exists_cases. unfold say.
  destruct (_ !! p); by destruct (encodable _).
Qed.

Lemma relays_main_interfaces : relays main_interfaces interface_checks.
Proof.
  unfold main_interfaces, interface_checks.
  apply relays_print; [reflexivity| |].
  { intros acc. apply observer_for_each. intros [n descr] s _. observe. }
  apply relays_for_each; [by intros [n descr] acc|].
  intros [n descr] Hin. split; [apply observer_check_interface_definition|].
  intros d. apply interface_check_modelled. by apply (interfaces_plain n descr).
Qed.

Lemma relays_main_configuration :
  relays main_configuration configuration_checks.
Proof.
  intros acc d. unfold main_configuration, configuration_checks, result_of,
    bind, ret.
  rewrite print_ok by reflexivity. cbn [fst snd].
  rewrite check_csproj_references_run by reflexivity. cbn [disk stdout].
  destruct (d !! csproj_file) as [[content|e]|] eqn:Ec.
  - destruct (List.filter _ required_packages) eqn:Hf;
      rewrite check_vsix_manifest_run by reflexivity; cbn [disk stdout];
      (destruct (d !! manifest_file) as [[content'|e']|] eqn:Em;
       [destruct (List.filter _ required_elements) eqn:Hf'| |]);
      cbn [fst];
      try (intros c [<-|[<-|[]]];
           [rewrite check_csproj_references_run by reflexivity
           |rewrite check_vsix_manifest_run by reflexivity];
           cbn [disk fst]; rewrite ?Ec, ?Em, ?Hf, ?Hf'; cbn [fst]; by eexists);
      (exists (check_vsix_manifest manifest_file); split; [cbn; auto|];
       rewrite check_vsix_manifest_run by reflexivity; cbn [disk]; by rewrite Em).
  - exists (check_csproj_references csproj_file). split; [cbn; auto|].
    rewrite check_csproj_references_run by reflexivity. cbn [disk]. by rewrite Ec.
  - rewrite check_vsix_manifest_run by reflexivity; cbn [disk stdout].
    destruct (d !! manifest_file) as [[content'|e']|] eqn:Em;
      [destruct (List.filter _ required_elements) eqn:Hf'| |];
      cbn [fst];
      try (intros c [<-|[<-|[]]];
           [rewrite check_csproj_references_run by reflexivity
           |rewrite check_vsix_manifest_run by reflexivity];
           cbn [disk fst]; rewrite ?Ec, ?Em, ?Hf'; cbn [fst]; by eexists).
    exists (check_vsix_manifest manifest_file). split; [cbn; auto|].
    rewrite check_vsix_manifest_run by reflexivity. cbn [disk]. by rewrite Em.
Qed.

Lemma relays_main_integration : relays main_integration [integration_check].
Proof.
  intros acc d. unfold result_of at 1. rewrite main_integration_run.
  cbn [disk stdout].
  destruct (d !! package_file) as [[content|e]|] eqn:E.
  - destruct (integration_markers content) eqn:Hm; cbn [fst];
      intros c [<-|[]]; rewrite integration_check_result, E; by eexists.
  - cbn [fst]. exists integration_check. split; [by left|].
    by rewrite integration_check_result, E.
  - cbn [fst]. intros c [<-|[]]. rewrite integration_check_result, E.
    by eexists.
Qed.

Lemma relays_main_final : relays main_final [].
Proof. intros acc d. rewrite main_final_result. by intros c []. Qed.

Lemma main_relays d :
  match result_of main d with
  | Returns _ =>
    forall check, In check checklist -> exists b, result_of check d = Returns b
  | Raises e => exists check, In check checklist /\ result_of check d = Raises e
  | Unmodelled => False
  end.
Proof.
  assert (relays
            (fun acc =>
               acc <- main_core_files acc;;
               acc <- main_interfaces acc;;
               acc <- main_configuration acc;;
               acc <- main_integration acc;;
               main_final acc)
            (core_file_checks ++ interface_checks ++ configuration_checks
               ++ [integration_check] ++ [])) as H.
  { refine (relays_seq main_core_files _ _ _ observer_main_core_files _
              relays_main_core_files _); [observe|].
    refine (relays_seq main_interfaces _ _ _ observer_main_interfaces _
              relays_main_interfaces _); [observe|].
    refine (relays_seq main_configuration _ _ _ observer_main_configuration _
              relays_main_configuration _); [observe|].
    exact (relays_seq main_integration main_final _ _
             observer_main_integration observer_main_final
             relays_main_integration relays_main_final). }
  specialize (H true d). cbv beta in H. rewrite app_nil_r in H. unfold main.
  do 2 (rewrite result_of_bind by observe;
        change (result_of (print ?s) d) with (@Returns unit tt); cbv iota).
  exact H.
Qed.

Lemma raising_check_names_its_file d check e :
  In check checklist -> result_of check d = Raises e ->
  exists path, In path opened_files /\ d !! path = Some (Unreadable e).
Proof.
  unfold checklist, core_file_checks, interface_checks, configuration_checks,
    opened_files.
  rewrite !in_app_iff, !in_map_iff.
  intros [([p descr] & <- & Hin) | [([n descr] & <- & Hin) | [Hin | Hin]]].
  - destruct (core_files_encodable p descr Hin).
    unfold result_of. rewrite check_file_exists_run by done.
    by destruct (_ !! p).
  - destruct (interfaces_encodable n descr Hin) as [Hn Hp]. unfold result_of.
    rewrite (check_interface_definition_run _ _ _
               (interfaces_plain n descr Hin) Hn Hp).
    cbn [disk]. intros Hr. exists (interface_file n). split.
    + apply in_app_iff. left. apply in_map_iff. by exists (n, descr).
    + destruct (d !! interface_file n) as [[content|e']|]; [|by injection Hr as ->|done].
      by destruct (Re.search _ content).
  - destruct Hin as [<-|[<-|[]]]; unfold result_of.
    + rewrite check_csproj_references_run by reflexivity. cbn [disk]. intros Hr.
      exists csproj_file. split; [apply in_app_iff; right; cbn; auto|].
      destruct (d !! csproj_file) as [[content|e']|]; [|by injection Hr as ->|done].
      by destruct (List.filter _ required_packages).
    + rewrite check_vsix_manifest_run by reflexivity. cbn [disk]. intros Hr.
      exists manifest_file. split; [apply in_app_iff; right; cbn; auto|].
      destruct (d !! manifest_file) as [[content|e']|]; [|by injection Hr as ->|done].
      by destruct (List.filter _ required_elements).
  - destruct Hin as [<-|[]]. rewrite integration_check_result. intros Hr.
    exists package_file. split; [apply in_app_iff; right; cbn; auto|].
    by destruct (d !! package_file) as [[content|e']|]; [|injection Hr as ->|].
Qed.

Lemma unreadable_file_has_a_raising_check d path e :
  In path opened_files -> d !! path = Some (Unreadable e) ->
  exists check, In check checklist /\ result_of check d = Raises e.
Proof.
  unfold opened_files. rewrite in_app_iff, in_map_iff.
  intros [([n descr] & <- & Hin) | Hin] Hnode.
  - exists (check_interface_definition (interface_file n) n). split.
    + apply checklist_split. left. rewrite !in_app_iff. right. left.
      apply in_map_iff. by exists (n, descr).
    + destruct (interfaces_encodable n descr Hin) as [Hn Hp]. unfold result_of.
      rewrite (check_interface_definition_run _ _ _
                 (interfaces_plain n descr Hin) Hn Hp).
      cbn [disk]. by rewrite Hnode.
  - destruct Hin as [<-|[<-|[<-|[]]]].
    + exists (check_csproj_references csproj_file). split.
      * apply checklist_split. left. rewrite !in_app_iff. right. right.
        cbn. auto.
      * unfold result_of. rewrite check_csproj_references_run by reflexivity. cbn [disk].
        by rewrite Hnode.
    + exists (check_vsix_manifest manifest_file). split.
      * apply checklist_split. left. rewrite !in_app_iff. right. right.
        cbn. auto.
      * unfold result_of. rewrite check_vsix_manifest_run by reflexivity. cbn [disk].
        by rewrite Hnode.
    + exists integration_check. split; [apply checklist_split; by right|].
      by rewrite integration_check_result, Hnode.
Qed.

Lemma main_returns_openable d success :
  result_of main d = Returns success -> openable d.
Proof.
  intros Hmain path e Hin Hnode. pose proof (main_relays d) as H.
  rewrite Hmain in H.
  destruct (unreadable_file_has_a_raising_check d path e Hin Hnode)
    as (check & Hc & Hr).
  destruct (H check Hc) as [b Hb]. congruence.
Qed.

(** X5.  [main] returns exactly when every file it opens is readable.
    Otherwise it raises, and the exception is the one that reading one
    of these files raises: the run is never cut short for another
    reason. *)
Theorem main_returns_iff_files_open (d : filesystem) :
  ((exists success, result_of main d = Returns success) <-> openable d)
  /\ (forall e, result_of main d = Raises e ->
        exists path, In path opened_files /\ d !! path = Some (Unreadable e))
  /\ result_of main d <> Unmodelled.
Proof.
  split_and!.
  - split.
    + intros [success Hmain]. by apply (main_returns_openable d success).
    + intros Hd. eexists. unfold result_of. by rewrite (main_complete d Hd).
  - intros e Hmain. pose proof (main_relays d) as H. rewrite Hmain in H.
    destruct H as (check & Hc & Hr).
    by apply (raising_check_names_its_file d check e).
  - intros Hmain. pose proof (main_relays d) as H. by rewrite Hmain in H.
Qed.

(** ** What a run prints *)

(** X6.  Whatever is on the disk, the run prints the title, the rule and
    the results of the five existence checks before anything can cut it
    short; each of the five lines carries the mark of its check. *)
Theorem existence_results_are_always_printed (d : filesystem) :
  exists p rest,
    run_script d = Some p
    /\ printed p
       = "🔍 Validating Visual Studio Extension Project Structure" ++ nl
         ++ times "=" 60 ++ nl
         ++ (nl ++ "📁 Core Project Files:") ++ nl
         ++ concat (map (fun check => output_of check d) core_file_checks)
         ++ (nl ++ "🔌 Interface Definitions:") ++ nl
         ++ rest
    /\ forall check, In check core_file_checks -> reports check d.
Proof.
  destruct (run_script_spec d) as (p & Hrun & _ & Hprinted & _).
  assert (forall acc, observer (for_each interfaces
            (fun '(interface_name, description) all_checks_passed =>
               let file_path := interface_file interface_name in
               ok <- check_interface_definition file_path interface_name;;
               ret (note ok all_checks_passed)) acc)) as Hloop.
  { intros acc. apply observer_for_each. intros [n descr] s _. observe. }
  exists p. eexists. split; [done|]. split.
  - rewrite Hprinted. unfold main.
    do 2 (rewrite output_of_bind by observe;
          change (result_of (print ?s) d) with (@Returns unit tt); cbv iota;
          change (output_of (print ?s) d) with (s ++ nl)).
    rewrite output_of_bind by observe.
    unfold result_of at 1, output_of at 1.
    rewrite main_core_files_complete. cbn [fst snd stdout].
    rewrite output_of_bind by observe.
    unfold main_interfaces at 1.
    rewrite output_of_bind by (auto using observer_print).
    change (output_of (print ?s) d) with (s ++ nl).
    change (result_of (print ?s) d) with (@Returns unit tt). cbv iota.
    rewrite <- !app_assoc. cbn [app]. reflexivity.
  - intros check [[path descr] [<- Hin]]%in_map_iff.
    destruct (core_files_encodable path descr Hin).
    by apply reports_check_file_exists.
Qed.

Lemma passing_existence_output p descr d :
  result_of (check_file_exists p descr) d = Returns true ->
  output_of (check_file_exists p descr) d = ("✅ " ++ descr ++ ": " ++ p) ++ nl.
Proof.
  unfold result_of, output_of. rewrite check_file_exists_cases.
  cbn [disk stdout]. unfold say.
  destruct (d !! p); by destruct (encodable _).
Qed.

Lemma passing_interface_output p n d :
  Re.plain n = true ->
  result_of (check_interface_definition p n) d = Returns true ->
  output_of (check_interface_definition p n) d
  = ("✅ Interface " ++ n ++ ": Properly defined") ++ nl.
Proof.
  intros Hplain. unfold result_of, output_of.
  rewrite (check_interface_definition_cases _ _ _ Hplain). cbn [disk stdout].
  unfold say.
  destruct (d !! p) as [[content|e]|]; [|done|by destruct (encodable _)].
  destruct (Re.search _ content); by destruct (encodable _).
Qed.

Lemma passing_csproj_output p d :
  result_of (check_csproj_references p) d = Returns true ->
  output_of (check_csproj_references p) d
  = "✅ All required NuGet packages are referenced" ++ nl.
Proof.
  unfold result_of, output_of. rewrite check_csproj_references_cases.
  cbn [disk stdout]. unfold say.
  destruct (d !! p) as [[content|e]|]; [|done|by destruct (encodable _)].
  by destruct (List.filter _ required_packages).
Qed.

Lemma passing_manifest_output p d :
  result_of (check_vsix_manifest p) d = Returns true ->
  output_of (check_vsix_manifest p) d
  = "✅ VSIX manifest is properly configured" ++ nl.
Proof.
  unfold result_of, output_of. rewrite check_vsix_manifest_cases.
  cbn [disk stdout]. unfold say.
  destruct (d !! p) as [[content|e]|]; [|done|by destruct (encodable _)].
  by destruct (List.filter _ required_elements).
Qed.

Lemma passing_integration_output d :
  d !! package_file <> None ->
  result_of integration_check d = Returns true ->
  output_of integration_check d
  = (nl ++ "🏗️ Service Container Integration:") ++ nl
    ++ "✅ Service container is properly integrated in main package" ++ nl.
Proof.
  intros Hsome. unfold result_of, output_of, integration_check.
  rewrite main_integration_run. cbn [disk stdout].
  destruct (d !! package_file) as [[content|e]|]; [|done|done].
  destruct (integration_markers content); [|done].
  intros _. cbn [snd stdout]. by rewrite <- !app_assoc.
Qed.

Lemma concat_map_ext_in {X : Type} (f g : X -> str) (l : list X) :
  (forall x, In x l -> f x = g x) ->
  concat (map f l) = concat (map g l).
Proof. intros H. f_equal. by apply map_ext_in. Qed.

(** X7.  Every run that exits with status 0 prints the same report,
    character for character: nothing that is in the files shows in it. *)
Theorem successful_runs_print_one_report (d : filesystem) :
  exists p,
    run_script d = Some p
    /\ (exit_status p = 0%Z -> printed p = success_report).
Proof.
  destruct (run_script_spec d) as (p & Hrun & _ & Hprinted & Hstatus).
  exists p. split; [done|]. intros Hexit. rewrite Hexit in Hstatus.
  destruct (forallb _ checklist) eqn:Hall; [|done].
  pose proof Hall as Hpass. rewrite all_pass_iff in Hpass.
  assert (result_of main d = Returns true) as Hmain.
  { pose proof (main_tracks d) as H. pose proof (main_relays d) as H'.
    destruct (result_of main d) as [success|e|]; [congruence| |done].
    destruct H' as (check & Hc & Hr). specialize (Hpass check Hc). congruence. }
  pose proof (main_complete d (main_returns_openable d true Hmain)) as Hout.
  rewrite Hprinted. unfold output_of at 1. rewrite Hout, Hall. cbn [snd stdout].
  assert (d !! package_file <> None) as Hpackage.
  { assert (result_of (check_file_exists package_file "Main package class") d
            = Returns true) as Hex
      by (apply Hpass, checklist_split; left; apply in_app_iff; left;
          cbn; auto).
    unfold result_of in Hex.
    rewrite check_file_exists_run in Hex by reflexivity.
    cbn [disk] in Hex. by destruct (d !! package_file). }
  rewrite (passing_integration_output d Hpackage)
    by (apply Hpass, checklist_split; by right).
  unfold core_file_checks, interface_checks. rewrite !map_map.
  rewrite (concat_map_ext_in _
             (fun '(p, descr) => ("✅ " ++ descr ++ ": " ++ p) ++ nl) core_files).
  2:{ intros [path descr] Hin. apply passing_existence_output, Hpass,
        checklist_split. left. apply in_app_iff. left.
      apply in_map_iff. by exists (path, descr). }
  rewrite (concat_map_ext_in _
             (fun '(n, _) => ("✅ Interface " ++ n ++ ": Properly defined") ++ nl)
             interfaces).
  2:{ intros [n descr] Hin. apply passing_interface_output;
        [by apply (interfaces_plain n descr)|].
      apply Hpass, checklist_split. left. rewrite !in_app_iff. right. left.
      apply in_map_iff. by exists (n, descr). }
  cbn [configuration_checks map concat].
  rewrite passing_csproj_output
    by (apply Hpass, checklist_split; left; rewrite !in_app_iff;
        right; right; cbn; auto).
  rewrite passing_manifest_output
    by (apply Hpass, checklist_split; left; rewrite !in_app_iff;
        right; right; cbn; auto).
  vm_compute. reflexivity.
Qed.

(** The complete project is such a run. *)
Example complete_project_report :
  (fun p => (exit_status p, printed p)) <$> run_script complete_project
  = Some (0%Z, success_report).
Proof. vm_compute. reflexivity. Qed.

(** X8.  A run that completes with a failed check ends its report with
    the rule and the two lines of the failure banner. *)
Theorem failed_runs_end_with_the_failure_banner (d : filesystem) :
  result_of main d = Returns false ->
  exists p body,
    run_script d = Some p
    /\ exit_status p = 1%Z
    /\ printed p = body ++ failure_banner.
Proof.
  intros Hmain.
  destruct (run_script_spec d) as (p & Hrun & _ & Hprinted & Hstatus).
  pose proof (main_complete d (main_returns_openable d false Hmain)) as Hout.
  assert (forallb (fun check => passes check d) checklist = false) as Hall.
  { unfold result_of in Hmain. rewrite Hout in Hmain. cbn [fst] in Hmain.
    congruence. }
  exists p. eexists. split; [done|]. split; [by rewrite Hstatus, Hall|].
  rewrite Hprinted. unfold output_of at 1. rewrite Hout, Hall. cbn [snd stdout].
  change (output_of (main_final false) d) with failure_banner.
  rewrite !app_assoc. reflexivity.
Qed.

Lemma failed_runs_end_with_the_failure_banner_witness :
  result_of main empty_disk = Returns false
  /\ exists p body,
       run_script empty_disk = Some p
       /\ exit_status p = 1%Z
       /\ printed p = body ++ failure_banner.
Proof.
  split; [vm_compute; reflexivity|].
  apply (failed_runs_end_with_the_failure_banner empty_disk).
  vm_compute; reflexivity.
Defined.

(* ===================================================================== *)
(** ** The files that a run looks at *)
(* ===================================================================== *)

Section SameRun.

Variables d d' : filesystem.

Lemma same_run_ret {A : Type} (a : A) : same_run (ret a) d d'.
Proof. done. Qed.

Lemma same_run_print s : same_run (print s) d d'.
Proof.
  unfold same_run, result_of, output_of, print. by destruct (encodable s).
Qed.

Lemma same_run_re_search pattern content :
  same_run (re_search pattern content) d d'.
Proof. unfold re_search. by destruct (Re.re_compile pattern). Qed.

Lemma same_run_path_exists path :
  d !! path = d' !! path -> same_run (path_exists path) d d'.
Proof.
  intros H. unfold same_run, result_of, output_of, path_exists.
  cbn [fst snd disk stdout]. by rewrite H.
Qed.

Lemma same_run_read_file path :
  d !! path = d' !! path -> same_run (read_file path mode_r) d d'.
Proof.
  intros H. unfold same_run, result_of, output_of, read_file.
  cbn [disk stdout]. rewrite H. by destruct (d' !! path) as [[text|e]|].
Qed.

Lemma same_run_bind {A B : Type} (m : M A) (f : A -> M B) :
  observer m -> (forall a, observer (f a)) ->
  same_run m d d' -> (forall a, same_run (f a) d d') ->
  same_run (bind m f) d d'.
Proof.
  intros Hm Hf [Hr Ho] Hk. unfold same_run.
  rewrite !result_of_bind, !output_of_bind by done. rewrite Hr, Ho.
  destruct (result_of m d') as [a| |]; [|done|done].
  destruct (Hk a) as [-> ->]. done.
Qed.

Lemma same_run_for_each {X S : Type} (xs : list X) (body : X -> S -> M S) s :
  (forall x s', In x xs -> observer (body x s')) ->
  (forall x s', In x xs -> same_run (body x s') d d') ->
  same_run (for_each xs body s) d d'.
Proof.
  revert s. induction xs as [|x xs IH]; intros s Hobs Hsame; [done|].
  cbn [for_each]. apply same_run_bind.
  - apply Hobs. by left.
  - intros s'. apply observer_for_each. intros y s'' Hy. apply Hobs. by right.
  - apply Hsame. by left.
  - intros s'. apply IH; intros y s'' Hy; [apply Hobs | apply Hsame]; by right.
Qed.

End SameRun.

(** Goals [same_run m d d'] for an action built from the primitives, with
    the agreement of the disks on the paths it reads at hand. *)
Ltac same_run :=
  repeat first
    [ progress intros
    | apply same_run_ret
    | apply same_run_print
    | apply same_run_re_search
    | apply same_run_path_exists; assumption
    | apply same_run_read_file; assumption
    | apply same_run_bind; [observe | observe | |]
    | match goal with
      | |- same_run (if ?b then _ else _) _ _ => destruct b
      | |- same_run (match ?x with _ => _ end) _ _ => destruct x
      | |- same_run (let _ := _ in _) _ _ => cbv zeta
      end ].

Lemma same_run_check_file_exists d d' path description :
  d !! path = d' !! path ->
  same_run (check_file_exists path description) d d'.
Proof. intros H. unfold check_file_exists. same_run. Qed.

Lemma same_run_check_interface_definition d d' path interface_name :
  d !! path = d' !! path ->
  same_run (check_interface_definition path interface_name) d d'.
Proof. intros H. unfold check_interface_definition. same_run. Qed.

Lemma same_run_check_csproj_references d d' path :
  d !! path = d' !! path -> same_run (check_csproj_references path) d d'.
Proof. intros H. unfold check_csproj_references. same_run. Qed.

Lemma same_run_check_vsix_manifest d d' path :
  d !! path = d' !! path -> same_run (check_vsix_manifest path) d d'.
Proof. intros H. unfold check_vsix_manifest. same_run. Qed.

Lemma agree_on_core_file d d' path description :
  agree_on checked_paths d d' -> In (path, description) core_files ->
  d !! path = d' !! path.
Proof.
  intros Hagree Hin. apply Hagree. unfold checked_paths. apply in_app_iff.
  left. apply in_map_iff. by exists (path, description).
Qed.

Lemma agree_on_interface d d' interface_name description :
  agree_on checked_paths d d' -> In (interface_name, description) interfaces ->
  d !! interface_file interface_name = d' !! interface_file interface_name.
Proof.
  intros Hagree Hin. apply Hagree. unfold checked_paths. apply in_app_iff.
  right. apply in_map_iff. by exists (interface_name, description).
Qed.

Lemma same_run_main d d' : agree_on checked_paths d d' -> same_run main d d'.
Proof.
  intros Hagree.
  assert (d !! csproj_file = d' !! csproj_file) as Hcsproj
    by (apply (agree_on_core_file d d' _ "Project file"); cbn; auto).
  assert (d !! manifest_file = d' !! manifest_file) as Hmanifest
    by (apply (agree_on_core_file d d' _ "VSIX manifest"); cbn; auto).
  assert (d !! package_file = d' !! package_file) as Hpackage
    by (apply (agree_on_core_file d d' _ "Main package class"); cbn; auto).
  unfold main.
  apply same_run_bind; [observe | observe | apply same_run_print | intros _].
  apply same_run_bind; [observe | observe | apply same_run_print | intros _].
  cbv zeta.
  apply same_run_bind; [observe | observe | | intros acc1].
  { unfold main_core_files.
    apply same_run_bind; [observe | | apply same_run_print | intros _].
    { intros _. apply observer_for_each. intros [p descr] s _. observe. }
    apply same_run_for_each; intros [p descr] s Hin; [observe|].
    apply same_run_bind; [observe | observe | | intros; apply same_run_ret].
    apply same_run_check_file_exists. by apply (agree_on_core_file d d' p descr). }
  apply same_run_bind; [observe | observe | | intros acc2].
  { unfold main_interfaces.
    apply same_run_bind; [observe | | apply same_run_print | intros _].
    { intros _. apply observer_for_each. intros [n descr] s _. observe. }
    apply same_run_for_each; intros [n descr] s Hin; [observe|].
    cbv zeta.
    apply same_run_bind; [observe | observe | | intros; apply same_run_ret].
    apply same_run_check_interface_definition.
    by apply (agree_on_interface d d' n descr). }
  apply same_run_bind; [observe | observe | | intros acc3].
  { unfold main_configuration.
    apply same_run_bind; [observe | observe | apply same_run_print | intros _].
    apply same_run_bind;
      [observe | observe | by apply same_run_check_csproj_references
      | intros ok1].
    cbv zeta.
    apply same_run_bind;
      [observe | observe | by apply same_run_check_vsix_manifest
      | intros; apply same_run_ret]. }
  apply same_run_bind; [observe | observe | | intros acc4].
  { unfold main_integration. same_run. }
  unfold main_final. same_run.
Qed.

(** X9.  Two disks that hold the same under the twelve paths that [main]
    names give the same run: the same characters printed and the same
    exit status.  No other file, and nothing else on the disk, is looked
    at. *)
Theorem only_the_checked_paths_matter (d d' : filesystem) :
  agree_on checked_paths d d' ->
  exists p p',
    run_script d = Some p /\ run_script d' = Some p'
    /\ printed p = printed p'
    /\ exit_status p = exit_status p'.
Proof.
  intros Hagree. destruct (same_run_main d d' Hagree) as [Hr Ho].
  pose proof (main_relays d) as H. pose proof (main_relays d') as H'.
  unfold run_script.
  rewrite !(observer_run main _ observer_main). cbn [disk stdout app].
  rewrite <- Hr, <- Ho.
  destruct (result_of main d) as [success|e|]; [| |done];
    eexists _, _; split_and!; reflexivity.
Qed.

Lemma complete_project_agrees_with_readme :
  agree_on checked_paths complete_project complete_project_with_readme.
Proof.
  intros path Hin. unfold checked_paths in Hin.
  cbn [map core_files interfaces fst app In] in Hin.
  repeat destruct Hin as [<-|Hin]; try (vm_compute; reflexivity).
  destruct Hin.
Qed.

Lemma only_the_checked_paths_matter_witness :
  agree_on checked_paths complete_project complete_project_with_readme
  /\ exists p p',
       run_script complete_project = Some p
       /\ run_script complete_project_with_readme = Some p'
       /\ printed p = printed p'
       /\ exit_status p = exit_status p'.
Proof.
  split; [exact complete_project_agrees_with_readme|].
  exact (only_the_checked_paths_matter complete_project
           complete_project_with_readme complete_project_agrees_with_readme).
Defined.

(* ===================================================================== *)
(** ** The projects that pass *)
(* ===================================================================== *)

Lemma existence_passes_iff path description d :
  encodable path = true -> encodable description = true ->
  result_of (check_file_exists path description) d = Returns true <->
  d !! path <> None.
Proof.
  intros Hp Hdescr. unfold result_of. rewrite check_file_exists_run by done.
  cbn [disk]. destruct (d !! path); cbn [fst]; split; congruence.
Qed.

Lemma interface_passes_iff path interface_name d :
  Re.plain interface_name = true ->
  encodable interface_name = true -> encodable path = true ->
  result_of (check_interface_definition path interface_name) d = Returns true
  <->
  exists content before ws1 ws2 after,
    d !! path = Some (RegularFile content)
    /\ Re.spaces ws1 /\ Re.spaces ws2
    /\ content = before ++ "public" ++ ws1 ++ "interface" ++ ws2
                   ++ interface_name ++ after.
Proof.
  intros Hplain Hn Hp. unfold result_of.
  rewrite (check_interface_definition_run _ _ _ Hplain Hn Hp). cbn [disk].
  destruct (d !! path) as [[content|e]|]; cbn [fst].
  - destruct (Re.search _ content) eqn:Hs; cbn [fst].
    + split; [intros _|done].
      apply search_spec in Hs as (before & m & after & -> & Hm).
      apply interface_pattern_matches in Hm as (ws1 & ws2 & H1 & H2 & ->).
      exists (before ++ ("public" ++ ws1 ++ "interface" ++ ws2 ++ interface_name)
                ++ after), before, ws1, ws2, after.
      split_and!; try done. by rewrite <- !app_assoc.
    + split; [done|].
      intros (c & before & ws1 & ws2 & after & [= <-] & H1 & H2 & Hc).
      assert (Re.search (interface_prefix ++ Re.literal interface_name) content
              = true) as H; [|congruence].
      apply search_spec.
      exists before,
        ("public" ++ ws1 ++ "interface" ++ ws2 ++ interface_name), after.
      split; [by rewrite Hc, <- !app_assoc|].
      apply interface_pattern_matches. by exists ws1, ws2.
  - split; [done|]. by intros (c & ? & ? & ? & ? & [=] & _).
  - split; [done|]. by intros (c & ? & ? & ? & ? & [=] & _).
Qed.

Lemma csproj_passes_iff path d :
  result_of (check_csproj_references path) d = Returns true <->
  exists content,
    d !! path = Some (RegularFile content)
    /\ forall package, In package required_packages ->
                       occurs_in package content.
Proof.
  unfold result_of. rewrite check_csproj_references_cases. cbn [disk].
  unfold say.
  destruct (d !! path) as [[content|e]|]; cbn [fst];
    [| |destruct (encodable _); cbn [fst]].
  - pose proof (none_missing_iff required_packages (fun n => n) content) as H.
    cbv zeta in H.
    destruct (List.filter _ required_packages) eqn:Hf; cbn [fst].
    + split; [intros _|done]. exists content. split; [done|]. by apply H.
    + split; [done|]. intros (c & [= <-] & Hall). apply H in Hall. discriminate.
  - split; [done|]. by intros (c & [=] & _).
  - split; [done|]. by intros (c & [=] & _).
  - split; [done|]. by intros (c & [=] & _).
Qed.

Lemma manifest_passes_iff path d :
  result_of (check_vsix_manifest path) d = Returns true <->
  exists content,
    d !! path = Some (RegularFile content)
    /\ forall element, In element required_elements ->
                       occurs_in ("<" ++ element) content.
Proof.
  unfold result_of. rewrite check_vsix_manifest_cases. cbn [disk].
  unfold say.
  destruct (d !! path) as [[content|e]|]; cbn [fst];
    [| |destruct (encodable _); cbn [fst]].
  - pose proof (none_missing_iff required_elements (app "<") content) as H.
    cbv zeta in H.
    destruct (List.filter _ required_elements) eqn:Hf; cbn [fst].
    + split; [intros _|done]. exists content. split; [done|]. by apply H.
    + split; [done|]. intros (c & [= <-] & Hall). apply H in Hall. discriminate.
  - split; [done|]. by intros (c & [=] & _).
  - split; [done|]. by intros (c & [=] & _).
  - split; [done|]. by intros (c & [=] & _).
Qed.

(** X10.  The projects on which the run exits with status 0, said in
    terms of the files alone: the five core paths exist; each interface
    file is readable and holds "public", whitespace, "interface",
    whitespace and its name; the csproj is readable and holds the five
    package names; the manifest is readable and holds the five opening
    tags; the main package file is readable and holds both markers. *)
Theorem passing_projects (d : filesystem) :
  (exists p, run_script d = Some p /\ exit_status p = 0%Z)
  <->
  (forall path description,
     In (path, description) core_files -> d !! path <> None)
  /\ (forall interface_name description,
        In (interface_name, description) interfaces ->
        exists content before ws1 ws2 after,
          d !! interface_file interface_name = Some (RegularFile content)
          /\ Re.spaces ws1 /\ Re.spaces ws2
          /\ content = before ++ "public" ++ ws1 ++ "interface" ++ ws2
                         ++ interface_name ++ after)
  /\ (exists content,
        d !! csproj_file = Some (RegularFile content)
        /\ forall package, In package required_packages ->
                           occurs_in package content)
  /\ (exists content,
        d !! manifest_file = Some (RegularFile content)
        /\ forall element, In element required_elements ->
                           occurs_in ("<" ++ element) content)
  /\ (exists content,
        d !! package_file = Some (RegularFile content)
        /\ occurs_in "ServiceContainer" content
        /\ occurs_in "InitializeAsync" content).
Proof.
  destruct (run_script_spec d) as (p & Hrun & _ & _ & Hstatus).
  assert ((exists p, run_script d = Some p /\ exit_status p = 0%Z) <->
          forall check, In check checklist -> result_of check d = Returns true)
    as ->.
  { rewrite <- all_pass_iff. split.
    - intros (p' & Hrun' & Hexit). rewrite Hrun in Hrun'. injection Hrun' as <-.
      rewrite Hexit in Hstatus. by destruct (forallb _ checklist).
    - intros Hall. exists p. split; [done|]. by rewrite Hstatus, Hall. }
  split.
  - intros Hall. split_and!.
    + intros path descr Hin.
      destruct (core_files_encodable path descr Hin) as [Hp Hdescr].
      apply (existence_passes_iff path descr d Hp Hdescr), Hall,
        checklist_split. left. apply in_app_iff. left.
      apply in_map_iff. by exists (path, descr).
    + intros n descr Hin.
      destruct (interfaces_encodable n descr Hin) as [Hn Hp].
      apply (interface_passes_iff _ n d (interfaces_plain n descr Hin) Hn Hp),
        Hall, checklist_split. left. rewrite !in_app_iff. right. left.
      apply in_map_iff. by exists (n, descr).
    + apply csproj_passes_iff, Hall, checklist_split. left.
      rewrite !in_app_iff. right. right. cbn. auto.
    + apply manifest_passes_iff, Hall, checklist_split. left.
      rewrite !in_app_iff. right. right. cbn. auto.
    + assert (result_of integration_check d = Returns true) as Hint
        by (apply Hall, checklist_split; by right).
      assert (d !! package_file <> None) as Hex.
      { apply (existence_passes_iff package_file "Main package class" d
                 eq_refl eq_refl), Hall,
          checklist_split. left. apply in_app_iff. left. cbn. auto. }
      rewrite integration_check_result in Hint.
      destruct (d !! package_file) as [[content|e]|]; [|done|done].
      exists content. split; [done|]. apply integration_markers_spec.
      congruence.
  - intros (Hcore & Hinterfaces & Hcsproj & Hmanifest & Hpackage) check.
    unfold checklist, core_file_checks, interface_checks, configuration_checks.
    rewrite !in_app_iff, !in_map_iff.
    intros [([path descr] & <- & Hin) | [([n descr] & <- & Hin) | [Hin | Hin]]].
    + destruct (core_files_encodable path descr Hin) as [Hp Hdescr].
      apply (existence_passes_iff path descr d Hp Hdescr).
      by apply (Hcore path descr).
    + destruct (interfaces_encodable n descr Hin) as [Hn Hp].
      apply (interface_passes_iff _ n d (interfaces_plain n descr Hin) Hn Hp).
      by apply (Hinterfaces n descr).
    + destruct Hin as [<-|[<-|[]]].
      * by apply csproj_passes_iff.
      * by apply manifest_passes_iff.
    + destruct Hin as [<-|[]].
      destruct Hpackage as (content & Hfile & Hmarkers).
      rewrite integration_check_result, Hfile.
      by apply integration_markers_spec in Hmarkers as ->.
Qed.
